(** * The AWS Connect contact-flow Lambda of the Whispa integration

    A shallow embedding of
    [infrastructure/aws-connect-lambda/lambda_function.py] and the
    properties of its handler: field extraction with fallback chains,
    validation of the two required fields, construction of the outbound
    payload, the best-effort POST to the backend and the shape of the value
    handed back to the contact flow.

    The handler is written in Python and receives a JSON-decoded event, so
    values are modelled as the objects [json.loads] produces, truthiness and
    [or] as Python defines them, and a failing attribute lookup or decoding
    step as a raised exception. *)

From Stdlib Require Import ZArith List String Ascii Bool Lia.
From Stdlib Require Import Strings.Byte.
From Stdlib Require Import SpecFloat.
Import ListNotations.
Local Open Scope string_scope.
Local Open Scope list_scope.
Set Warnings "-register-all".

(* ================================================================= *)
(** ** Python values *)

(** The objects a JSON document decodes to.  A [dict] keeps its items in
    insertion order; looking a key up takes the first item that carries it. *)
Inductive pyval : Type :=
| PNone
| PBool (b : bool)
| PInt (z : Z)
| PFloat (f : spec_float)
| PStr (s : string)
| PList (l : list pyval)
| PDict (items : list (string * pyval)).

(** [bool(s)] for a [str]. *)
Definition str_truthy (s : string) : bool :=
  match s with
  | EmptyString => false
  | String _ _ => true
  end.

(** [bool(v)]: [None], [False], zero, and the empty string, list and dict
    are false; everything else is true. *)
Definition truthy (v : pyval) : bool :=
  match v with
  | PNone => false
  | PBool b => b
  | PInt z => negb (Z.eqb z 0)
  | PFloat f => match f with S754_zero _ => false | _ => true end
  | PStr s => str_truthy s
  | PList l => match l with [] => false | _ :: _ => true end
  | PDict items => match items with [] => false | _ :: _ => true end
  end.

(** [type(v).__name__] *)
Definition type_name (v : pyval) : string :=
  match v with
  | PNone => "NoneType"
  | PBool _ => "bool"
  | PInt _ => "int"
  | PFloat _ => "float"
  | PStr _ => "str"
  | PList _ => "list"
  | PDict _ => "dict"
  end.

(** What [read()] on the body of an answer gives: the bytes, or an
    exception of the connection ([IncompleteRead], [TimeoutError], ...). *)
Inductive read_outcome : Type :=
| ReadBytes (bs : list byte)
| ReadRaises (class_name message : string).

(** Exceptions (subclasses of [Exception]) the handler can meet.  The [fp]
    of an [HTTPError] is the body of the error answer, if there is one. *)
Inductive pyexc : Type :=
| AttributeError (type_of_object attribute : string)
| UnicodeDecodeError
| HTTPError (code : Z) (fp : option read_outcome)
| URLError (reason : string)
| OtherException (class_name message : string).

(** A computation that returns a value or raises. *)
Inductive result (A : Type) : Type :=
| Return (a : A)
| Raise (e : pyexc).
Arguments Return {A} a.
Arguments Raise {A} e.

Definition rbind {A B : Type} (m : result A) (k : A -> result B) : result B :=
  match m with
  | Return a => k a
  | Raise e => Raise e
  end.

Notation "x <- m ;; k" := (rbind m (fun x => k))
  (at level 61, m at next level, right associativity).

(** First item of a dict with the given key. *)
Fixpoint assoc (k : string) (items : list (string * pyval)) : option pyval :=
  match items with
  | [] => None
  | (k', v) :: rest => if String.eqb k k' then Some v else assoc k rest
  end.

(** [o.get(k, default)].  Only a dict has the method; on any other object
    the attribute lookup raises [AttributeError]. *)
Definition dict_get (o : pyval) (k : string) (default : pyval) : result pyval :=
  match o with
  | PDict items =>
      Return (match assoc k items with Some v => v | None => default end)
  | _ => Raise (AttributeError (type_name o) "get")
  end.

(** [x or y]: [y] is evaluated only when [x] is false. *)
Definition py_or (x y : result pyval) : result pyval :=
  match x with
  | Return a => if truthy a then Return a else y
  | Raise e => Raise e
  end.

(** [v or None] on an already evaluated value. *)
Definition or_None (v : pyval) : pyval := if truthy v then v else PNone.

(** [s.rstrip('/')]: all trailing slashes are removed. *)
Fixpoint rstrip_slash (s : string) : string :=
  match s with
  | EmptyString => EmptyString
  | String c rest =>
      match rstrip_slash rest with
      | EmptyString => if Ascii.eqb c "/" then EmptyString else String c EmptyString
      | r => String c r
      end
  end.

(* ================================================================= *)
(** ** Strict UTF-8 decoding *)

Module Utf8.

Definition between (lo hi : N) (b : byte) : bool :=
  (N.leb lo (Byte.to_N b) && N.leb (Byte.to_N b) hi)%bool.

Definition cont (b : byte) : bool := between 0x80 0xBF b.

(** Lead byte of a three-byte sequence with its first continuation:
    no overlong form, no surrogate. *)
Definition lead3 (b0 b1 : byte) : bool :=
  (between 0xE0 0xE0 b0 && between 0xA0 0xBF b1
   || between 0xE1 0xEC b0 && cont b1
   || between 0xED 0xED b0 && between 0x80 0x9F b1
   || between 0xEE 0xEF b0 && cont b1)%bool.

(** Lead byte of a four-byte sequence with its first continuation:
    no overlong form, nothing above U+10FFFF. *)
Definition lead4 (b0 b1 : byte) : bool :=
  (between 0xF0 0xF0 b0 && between 0x90 0xBF b1
   || between 0xF1 0xF3 b0 && cont b1
   || between 0xF4 0xF4 b0 && between 0x80 0x8F b1)%bool.

Fixpoint valid (bs : list byte) : bool :=
  match bs with
  | [] => true
  | b0 :: r0 =>
      if between 0x00 0x7F b0 then valid r0
      else
        match r0 with
        | [] => false
        | b1 :: r1 =>
            if between 0xC2 0xDF b0 then (cont b1 && valid r1)%bool
            else
              match r1 with
              | [] => false
              | b2 :: r2 =>
                  if lead3 b0 b1 then (cont b2 && valid r2)%bool
                  else
                    match r2 with
                    | [] => false
                    | b3 :: r3 =>
                        (lead4 b0 b1 && cont b2 && cont b3 && valid r3)%bool
                    end
              end
        end
  end.

(** [bs.decode("utf-8")].  A [str] is kept as its UTF-8 text, so decoding
    checks the bytes and hands them over. *)
Definition decode (bs : list byte) : result string :=
  if valid bs then Return (string_of_list_byte bs)
  else Raise UnicodeDecodeError.

End Utf8.

(* ================================================================= *)
(** ** Effects of the handler *)

(** The request object built in the [try] block.  [data] is the object
    whose [json.dumps(...).encode("utf-8")] is the body. *)
Record Request : Type := {
  full_url : string;
  data : pyval;
  headers : list (string * string);
  method : string
}.

(** The lines the handler prints. *)
Inductive log_line : Type :=
| LogEventReceived (event : pyval)
| LogNoStreamARN
| LogNoContactId
| LogPayload (payload : pyval)
| LogWhispaResponse (status : Z) (body : string)
| LogHTTPError (code : Z) (body : string)
| LogConnectionError (reason : string)
| LogUnexpectedError (e : pyexc)
| LogNotConfigured.

Inductive effect : Type :=
| Printed (line : log_line)
| UrlOpen (req : Request) (timeout : Z).

(** What the library makes of the request of lines 118-125.
    [Rejected]: [Request(...)] itself raises (a [ValueError] for a URL
    without a type, say), so that [urlopen] is never called.  [Responds]:
    [urlopen] returns a response, whose [read()] gives [body].  [Raises]:
    [urlopen], or reading the response, raises [e]. *)
Inductive urlopen_outcome : Type :=
| Rejected (class_name message : string)
| Responds (status : Z) (body : list byte)
| Raises (e : pyexc).

(** Computations with effects: the effects performed so far, and the value
    returned or the exception raised. *)
Definition M (A : Type) : Type := (list effect * result A)%type.

Definition ret {A : Type} (a : A) : M A := ([], Return a).

Definition raise {A : Type} (e : pyexc) : M A := ([], Raise e).

Definition lift {A : Type} (r : result A) : M A := ([], r).

Definition bind {A B : Type} (m : M A) (k : A -> M B) : M B :=
  match m with
  | (t, Return a) => let (t', r) := k a in (t ++ t', r)
  | (t, Raise e) => (t, Raise e)
  end.

Notation "x <~ m ;; k" := (bind m (fun x => k))
  (at level 61, m at next level, right associativity).
Notation "m ;;; k" := (bind m (fun _ => k))
  (at level 61, right associativity).

Definition print (line : log_line) : M unit := ([Printed line], Return tt).

(** [try: body except ...: handler]: an exception of the body is passed to
    the first matching clause; what the clause itself raises is not caught. *)
Definition try_except {A : Type} (body : M A) (handler : pyexc -> M A) : M A :=
  match body with
  | (t, Return a) => (t, Return a)
  | (t, Raise e) => let (t', r) := handler e in (t ++ t', r)
  end.

Definition trace {A : Type} (m : M A) : list effect := fst m.
Definition outcome {A : Type} (m : M A) : result A := snd m.

(** The requests handed to [urllib.request], in order. *)
Fixpoint http_calls (t : list effect) : list (Request * Z) :=
  match t with
  | [] => []
  | UrlOpen req timeout :: rest => (req, timeout) :: http_calls rest
  | Printed _ :: rest => http_calls rest
  end.

(* ================================================================= *)
(** ** The handler *)

(** The module globals read from the environment when the module loads. *)
Record Config : Type := {
  WHISPA_API_URL : string;
  WHISPA_API_KEY : string
}.

(** The local variables the extraction part of the handler assigns. *)
Record ExtractedFields : Type := {
  contact_id : pyval;
  instance_arn : pyval;
  customer_number : pyval;
  agent_arn : pyval;
  agent_username : pyval;
  queue_name : pyval;
  initiation_method : pyval;
  stream_arn : pyval
}.

(** Lines 40-79: the assignments in source order. *)
Definition extract_fields (event : pyval) : result ExtractedFields :=
  details <- dict_get event "Details" (PDict []) ;;
  contact_data <- dict_get details "ContactData" (PDict []) ;;
  contact_id <- dict_get contact_data "ContactId" (PStr "") ;;
  instance_arn <- dict_get contact_data "InstanceARN" (PStr "") ;;
  customer_endpoint <- dict_get contact_data "CustomerEndpoint" (PDict []) ;;
  customer_number <- dict_get customer_endpoint "Address" (PStr "") ;;
  agent_data <- dict_get contact_data "Agent" (PDict []) ;;
  attributes <- dict_get contact_data "Attributes" (PDict []) ;;
  agent_arn <-
    py_or (py_or (dict_get agent_data "ARN" PNone)
                 (dict_get attributes "agent_arn" PNone))
          (Return PNone) ;;
  agent_username <-
    py_or (py_or (py_or (dict_get agent_data "Username" PNone)
                        (dict_get attributes "agent_username" PNone))
                 (dict_get contact_data "Name" PNone))
          (Return PNone) ;;
  queue_data <- dict_get contact_data "Queue" (PDict []) ;;
  queue_name <- dict_get queue_data "Name" (PStr "") ;;
  initiation_method <- dict_get contact_data "InitiationMethod" (PStr "") ;;
  media_streams <- dict_get contact_data "MediaStreams" (PDict []) ;;
  customer <- dict_get media_streams "Customer" (PDict []) ;;
  customer_audio <- dict_get customer "Audio" (PDict []) ;;
  stream_arn <- dict_get customer_audio "StreamARN" (PStr "") ;;
  Return {| contact_id := contact_id;
            instance_arn := instance_arn;
            customer_number := customer_number;
            agent_arn := agent_arn;
            agent_username := agent_username;
            queue_name := queue_name;
            initiation_method := initiation_method;
            stream_arn := stream_arn |}.

(** Lines 96-105. *)
Definition build_payload (f : ExtractedFields) : pyval :=
  PDict [ ("contact_id", contact_id f);
          ("stream_arn", stream_arn f);
          ("customer_number", or_None (customer_number f));
          ("agent_arn", or_None (agent_arn f));
          ("agent_username", or_None (agent_username f));
          ("instance_arn", or_None (instance_arn f));
          ("queue_name", or_None (queue_name f));
          ("initiation_method", or_None (initiation_method f)) ].

Definition missing_stream_arn : pyval :=
  PDict [ ("statusCode", PInt 400);
          ("error",
           PStr "Missing stream_arn - 'Start media streaming' block must run first") ].

Definition missing_contact_id : pyval :=
  PDict [ ("statusCode", PInt 400);
          ("error", PStr "Missing contact_id in event") ].

Definition success (f : ExtractedFields) : pyval :=
  PDict [ ("statusCode", PInt 200);
          ("contactId", contact_id f);
          ("streamArn", stream_arn f) ].

(** Lines 111-115. *)
Definition endpoint (cfg : Config) : string :=
  (rstrip_slash (WHISPA_API_URL cfg) ++ "/awsconnect/call-started")%string.

Definition request_headers (cfg : Config) : list (string * string) :=
  ("Content-Type", "application/json")
    :: (if str_truthy (WHISPA_API_KEY cfg)
        then [("X-API-Key", WHISPA_API_KEY cfg)]
        else []).

Definition build_request (cfg : Config) (payload : pyval) : Request :=
  {| full_url := endpoint cfg;
     data := payload;
     headers := request_headers cfg;
     method := "POST" |}.

(** Lines 117-139.  [urlopen] stands for the library and the network behind
    it: what building the request and opening it with [timeout=10] leads
    to.  [urlopen] is called, and [UrlOpen] recorded, only once
    [Request(...)] has returned; in the clause for [HTTPError] both
    [e.read()] and the decoding stand outside any [try]. *)
Definition deliver (urlopen : Request -> urlopen_outcome)
                   (cfg : Config) (payload : pyval) : M unit :=
  try_except
    (let req := build_request cfg payload in
     match urlopen req with
     | Rejected class_name message =>
         raise (OtherException class_name message)
     | Responds status body =>
         ([UrlOpen req 10], Return tt) ;;;
         response_body <~ lift (Utf8.decode body) ;;
         print (LogWhispaResponse status response_body)
     | Raises e =>
         ([UrlOpen req 10], Return tt) ;;;
         raise e
     end)
    (fun e =>
       match e with
       | HTTPError code fp =>
           error_body <~
             match fp with
             | Some (ReadBytes bs) => lift (Utf8.decode bs)
             | Some (ReadRaises class_name message) =>
                 raise (OtherException class_name message)
             | None => ret ""
             end ;;
           print (LogHTTPError code error_body)
       | URLError reason => print (LogConnectionError reason)
       | _ => print (LogUnexpectedError e)
       end).

(** [lambda_handler(event, context)]; the two globals come in [cfg]. *)
Definition lambda_handler (cfg : Config) (urlopen : Request -> urlopen_outcome)
                          (event context : pyval) : M pyval :=
  print (LogEventReceived event) ;;;
  f <~ lift (extract_fields event) ;;
  if negb (truthy (stream_arn f)) then
    print LogNoStreamARN ;;;
    ret missing_stream_arn
  else if negb (truthy (contact_id f)) then
    print LogNoContactId ;;;
    ret missing_contact_id
  else
    let payload := build_payload f in
    print (LogPayload payload) ;;;
    (if str_truthy (WHISPA_API_URL cfg)
     then deliver urlopen cfg payload
     else print LogNotConfigured) ;;;
    ret (success f).

(* ================================================================= *)
(** ** Reading an event by paths *)

(** The value found by following a path of keys through nested dicts, if
    every key on the way is there. *)
Fixpoint lookup_path (v : pyval) (path : list string) : option pyval :=
  match path with
  | [] => Some v
  | k :: rest =>
      match v with
      | PDict items =>
          match assoc k items with
          | Some v' => lookup_path v' rest
          | None => None
          end
      | _ => None
      end
  end.

(** A looked-up value counts as present when it is there and is not an
    empty one: for a string, when it is not the empty string. *)
Definition present (o : option pyval) : bool :=
  match o with
  | Some v => truthy v
  | None => false
  end.

Definition ContactData_path : list string := ["Details"; "ContactData"].

(** A path below [Details.ContactData]. *)
Definition in_contact (p : list string) : list string := ContactData_path ++ p.

(** The intermediate objects of the nested paths the handler reads. *)
Definition intermediate_paths : list (list string) :=
  [ ["Details"];
    ContactData_path;
    in_contact ["CustomerEndpoint"];
    in_contact ["Agent"];
    in_contact ["Attributes"];
    in_contact ["Queue"];
    in_contact ["MediaStreams"];
    in_contact ["MediaStreams"; "Customer"];
    in_contact ["MediaStreams"; "Customer"; "Audio"] ].

Definition is_dict (v : pyval) : bool :=
  match v with
  | PDict _ => true
  | _ => false
  end.

(** Every intermediate object of the event is a mapping or is missing. *)
Definition well_shaped (event : pyval) : Prop :=
  is_dict event = true /\
  forall p v, In p intermediate_paths -> lookup_path event p = Some v ->
              is_dict v = true.

Definition dict_items (v : pyval) : list (string * pyval) :=
  match v with
  | PDict items => items
  | _ => []
  end.

Definition nonempty_str_or_null (v : pyval) : bool :=
  match v with
  | PNone => true
  | PStr s => str_truthy s
  | _ => false
  end.

Definition str_or_null (v : pyval) : bool :=
  match v with
  | PNone => true
  | PStr _ => true
  | _ => false
  end.

(** The two shapes of a handler result. *)
Definition failure_record (r : pyval) : Prop :=
  exists msg, r = PDict [("statusCode", PInt 400); ("error", PStr msg)].

Definition success_record (r : pyval) : Prop :=
  exists c s, r = PDict [("statusCode", PInt 200); ("contactId", c); ("streamArn", s)].

Definition fixed_shape (r : pyval) : Prop := failure_record r \/ success_record r.

(** [n] slashes. *)
Fixpoint slashes (n : nat) : string :=
  match n with
  | O => EmptyString
  | S n' => String "/" (slashes n')
  end.


(** What the error handling of a delivery lets out: after an error status,
    the exception of reading the body, or of decoding a body that is not
    UTF-8 text. *)
Definition escapes (o : urlopen_outcome) : option pyexc :=
  match o with
  | Raises (HTTPError _ (Some (ReadBytes bs))) =>
      if Utf8.valid bs then None else Some UnicodeDecodeError
  | Raises (HTTPError _ (Some (ReadRaises class_name message))) =>
      Some (OtherException class_name message)
  | _ => None
  end.

(** The request as it is recorded when [urlopen] is called. *)
Definition opened (o : urlopen_outcome) (req : Request) : list (Request * Z) :=
  match o with
  | Rejected _ _ => []
  | _ => [(req, 10%Z)]
  end.

(* ================================================================= *)
(** ** Sample events, configurations and backends *)

Module Sample.

Definition contact_data_of (items : list (string * pyval)) : pyval :=
  PDict [("Details", PDict [("ContactData", PDict items)])].

Definition audio (stream : pyval) : string * pyval :=
  ("MediaStreams",
   PDict [("Customer", PDict [("Audio", PDict [("StreamARN", stream)])])]).

(** [ContactId] and [StreamARN] only. *)
Definition event_minimal : pyval :=
  contact_data_of [("ContactId", PStr "c-1"); audio (PStr "s-1")].

(** Agent given in all three places. *)
Definition event_agent : pyval :=
  contact_data_of
    [ ("ContactId", PStr "c-1");
      ("Agent", PDict [("ARN", PStr "A1"); ("Username", PStr "U1")]);
      ("Attributes", PDict [("agent_arn", PStr "A2"); ("agent_username", PStr "U2")]);
      ("Name", PStr "U3");
      audio (PStr "s-1") ].

(** The agent is named in the contact attributes only; the [Agent]
    object carries an empty ARN. *)
Definition event_agent_attributes_only : pyval :=
  contact_data_of
    [ ("ContactId", PStr "c-1");
      ("Agent", PDict [("ARN", PStr "")]);
      ("Attributes", PDict [("agent_arn", PStr "A2")]);
      audio (PStr "s-1") ].

Definition fields_agent_attributes_only : ExtractedFields :=
  {| contact_id := PStr "c-1";
     instance_arn := PStr "";
     customer_number := PStr "";
     agent_arn := PStr "A2";
     agent_username := PNone;
     queue_name := PStr "";
     initiation_method := PStr "";
     stream_arn := PStr "s-1" |}.

(** The agent's user name is in [ContactData.Name] only. *)
Definition event_name_only : pyval :=
  contact_data_of
    [ ("ContactId", PStr "c-1");
      ("Attributes", PDict [("agent_username", PStr "")]);
      ("Name", PStr "U3");
      audio (PStr "s-1") ].

Definition fields_name_only : ExtractedFields :=
  {| contact_id := PStr "c-1";
     instance_arn := PStr "";
     customer_number := PStr "";
     agent_arn := PNone;
     agent_username := PStr "U3";
     queue_name := PStr "";
     initiation_method := PStr "";
     stream_arn := PStr "s-1" |}.

Definition fields_minimal : ExtractedFields :=
  {| contact_id := PStr "c-1";
     instance_arn := PStr "";
     customer_number := PStr "";
     agent_arn := PNone;
     agent_username := PNone;
     queue_name := PStr "";
     initiation_method := PStr "";
     stream_arn := PStr "s-1" |}.

(** No media stream was started. *)
Definition event_no_stream : pyval :=
  contact_data_of [("ContactId", PStr "c-1")].

Definition fields_no_stream : ExtractedFields :=
  {| contact_id := PStr "c-1";
     instance_arn := PStr "";
     customer_number := PStr "";
     agent_arn := PNone;
     agent_username := PNone;
     queue_name := PStr "";
     initiation_method := PStr "";
     stream_arn := PStr "" |}.

(** A stream, but no contact id. *)
Definition event_no_contact : pyval :=
  contact_data_of [audio (PStr "s-1")].

(** [InstanceARN] is a number. *)
Definition event_numeric_instance : pyval :=
  contact_data_of
    [("ContactId", PStr "c-1"); ("InstanceARN", PInt 5); audio (PStr "s-1")].

Definition fields_numeric_instance : ExtractedFields :=
  {| contact_id := PStr "c-1";
     instance_arn := PInt 5;
     customer_number := PStr "";
     agent_arn := PNone;
     agent_username := PNone;
     queue_name := PStr "";
     initiation_method := PStr "";
     stream_arn := PStr "s-1" |}.

(** The contact is in no queue yet: [Queue] is there and is [null]. *)
Definition event_queue_null : pyval :=
  contact_data_of [("ContactId", PStr "c-1"); ("Queue", PNone)].

(** Media streaming was not started: [Audio] is there and is [null]. *)
Definition event_audio_null : pyval :=
  contact_data_of
    [ ("ContactId", PStr "c-1");
      ("MediaStreams", PDict [("Customer", PDict [("Audio", PNone)])]) ].

Definition cfg_backend : Config :=
  {| WHISPA_API_URL := "https://whispa.example/api/";
     WHISPA_API_KEY := "secret" |}.

Definition cfg_none : Config :=
  {| WHISPA_API_URL := ""; WHISPA_API_KEY := "" |}.

Definition backend_ok : Request -> urlopen_outcome :=
  fun _ => Responds 200 [].

(** Status 500 with the one-byte body [0xFF]. *)
Definition backend_error_binary : Request -> urlopen_outcome :=
  fun _ => Raises (HTTPError 500 (Some (ReadBytes [xff]))).

(** Status 502 with a body that breaks off while it is read. *)
Definition backend_error_truncated : Request -> urlopen_outcome :=
  fun _ => Raises (HTTPError 502 (Some (ReadRaises "IncompleteRead"
                                          "IncompleteRead(0 bytes read)"))).



(** [Attributes] is there and is [null]; the [Agent] object carries the
    ARN only and the user name is in [ContactData.Name]. *)
Definition event_attributes_null_name : pyval :=
  contact_data_of
    [ ("ContactId", PStr "c-1");
      ("Agent", PDict [("ARN", PStr "A1")]);
      ("Attributes", PNone);
      ("Name", PStr "U3");
      audio (PStr "s-1") ].

(** [Agent] is there and is [null]; the attributes name the agent. *)
Definition event_agent_null : pyval :=
  contact_data_of
    [ ("ContactId", PStr "c-1");
      ("Agent", PNone);
      ("Attributes", PDict [("agent_arn", PStr "A2"); ("agent_username", PStr "U2")]);
      audio (PStr "s-1") ].

(** Status 200 with the one-byte body [0xFF]. *)
Definition backend_ok_binary : Request -> urlopen_outcome :=
  fun _ => Responds 200 [xff].

(** The [Agent] object names the agent in full; [Attributes] is [null]. *)
Definition event_attributes_null : pyval :=
  contact_data_of
    [ ("ContactId", PStr "c-1");
      ("Agent", PDict [("ARN", PStr "A1"); ("Username", PStr "U1")]);
      ("Attributes", PNone);
      audio (PStr "s-1") ].

End Sample.

(* ================================================================= *)
(** ** Levels of an event and the errors of a lookup *)

(** What is found at a path, if anything, is a mapping. *)
Definition level_ok (event : pyval) (p : list string) : Prop :=
  forall v, lookup_path event p = Some v -> is_dict v = true.

(** The intermediate objects whose [.get] the extraction always calls.
    [Attributes] is not among them: it is consulted only when the [Agent]
    object leaves a field open. *)
Definition strict_levels : list (list string) :=
  [ ["Details"];
    ContactData_path;
    in_contact ["CustomerEndpoint"];
    in_contact ["Agent"];
    in_contact ["Queue"];
    in_contact ["MediaStreams"];
    in_contact ["MediaStreams"; "Customer"];
    in_contact ["MediaStreams"; "Customer"; "Audio"] ].

(** The error of a [.get] on an object that has none. *)
Definition get_error (e : pyexc) : Prop :=
  exists ty, e = AttributeError ty "get".

(** The fields read from an event without contact data. *)
Definition no_fields : ExtractedFields :=
  {| contact_id := PStr "";
     instance_arn := PStr "";
     customer_number := PStr "";
     agent_arn := PNone;
     agent_username := PNone;
     queue_name := PStr "";
     initiation_method := PStr "";
     stream_arn := PStr "" |}.

(* ================================================================= *)
(** ** The fields a payload is built from *)

Definition required_fields (f : ExtractedFields) : list (string * pyval) :=
  [ ("contact_id", contact_id f); ("stream_arn", stream_arn f) ].

Definition optional_fields (f : ExtractedFields) : list (string * pyval) :=
  [ ("customer_number", customer_number f);
    ("agent_arn", agent_arn f);
    ("agent_username", agent_username f);
    ("instance_arn", instance_arn f);
    ("queue_name", queue_name f);
    ("initiation_method", initiation_method f) ].

(* ================================================================= *)
(** ** What a completed extraction has read *)

(** The objects assigned on the way, with the lookups that gave them. *)
Inductive extraction_steps (event : pyval) (f : ExtractedFields) : Prop :=
| Steps
    (st_details : pyval)
    (st_contact_data : pyval)
    (st_customer_endpoint : pyval)
    (st_agent_data : pyval)
    (st_attributes : pyval)
    (st_queue_data : pyval)
    (st_media_streams : pyval)
    (st_customer : pyval)
    (st_customer_audio : pyval)
    (get_details : dict_get event "Details" (PDict []) = Return st_details)
    (get_contact_data : dict_get st_details "ContactData" (PDict []) = Return st_contact_data)
    (get_contact_id : dict_get st_contact_data "ContactId" (PStr "") = Return (contact_id f))
    (get_instance_arn : dict_get st_contact_data "InstanceARN" (PStr "") = Return (instance_arn f))
    (get_customer_endpoint : dict_get st_contact_data "CustomerEndpoint" (PDict []) = Return st_customer_endpoint)
    (get_customer_number : dict_get st_customer_endpoint "Address" (PStr "") = Return (customer_number f))
    (get_agent_data : dict_get st_contact_data "Agent" (PDict []) = Return st_agent_data)
    (get_attributes : dict_get st_contact_data "Attributes" (PDict []) = Return st_attributes)
    (get_agent_arn : py_or (py_or (dict_get st_agent_data "ARN" PNone) (dict_get st_attributes "agent_arn" PNone)) (Return PNone) = Return (agent_arn f))
    (get_agent_username : py_or (py_or (py_or (dict_get st_agent_data "Username" PNone) (dict_get st_attributes "agent_username" PNone)) (dict_get st_contact_data "Name" PNone)) (Return PNone) = Return (agent_username f))
    (get_queue_data : dict_get st_contact_data "Queue" (PDict []) = Return st_queue_data)
    (get_queue_name : dict_get st_queue_data "Name" (PStr "") = Return (queue_name f))
    (get_initiation_method : dict_get st_contact_data "InitiationMethod" (PStr "") = Return (initiation_method f))
    (get_media_streams : dict_get st_contact_data "MediaStreams" (PDict []) = Return st_media_streams)
    (get_customer : dict_get st_media_streams "Customer" (PDict []) = Return st_customer)
    (get_customer_audio : dict_get st_customer "Audio" (PDict []) = Return st_customer_audio)
    (get_stream_arn : dict_get st_customer_audio "StreamARN" (PStr "") = Return (stream_arn f)).

(* ================================================================= *)
(** ** Basic facts *)

Lemma rbind_Return_inv {A B : Type} (m : result A) (k : A -> result B) (b : B) :
  rbind m k = Return b -> exists a, m = Return a /\ k a = Return b.
Proof.
  destruct m as [a|e]; simpl; intros H.
  - exists a. split; [reflexivity | exact H].
  - discriminate H.
Qed.

Lemma py_or_Return_inv (x y : result pyval) (v : pyval) :
  py_or x y = Return v ->
  exists a, x = Return a /\
            ((truthy a = true /\ v = a) \/ (truthy a = false /\ y = Return v)).
Proof.
  destruct x as [a|e]; simpl; intros H; [|discriminate H].
  exists a. split; [reflexivity|].
  destruct (truthy a) eqn:Ta.
  - left. split; [reflexivity|]. now inversion H.
  - right. split; [reflexivity | exact H].
Qed.

Lemma dict_get_Return_inv (o : pyval) (k : string) (d v : pyval) :
  dict_get o k d = Return v ->
  exists items, o = PDict items /\
                v = match assoc k items with Some x => x | None => d end.
Proof.
  destruct o; simpl; intros H; try discriminate H.
  exists items. split; [reflexivity|]. now inversion H.
Qed.

Lemma dict_get_dict (items : list (string * pyval)) (k : string) (d : pyval) :
  dict_get (PDict items) k d =
  Return (match assoc k items with Some x => x | None => d end).
Proof. reflexivity. Qed.

Lemma is_dict_inv (v : pyval) : is_dict v = true -> exists items, v = PDict items.
Proof. destruct v; simpl; intros H; try discriminate H. now eexists. Qed.

(** One level down: a missing level reads as the empty mapping, under which
    nothing is found either. *)
Lemma lookup_path_descend (o : pyval) (k : string) (v : pyval)
                          (k' : string) (rest : list string) :
  dict_get o k (PDict []) = Return v ->
  lookup_path o (k :: k' :: rest) = lookup_path v (k' :: rest).
Proof.
  intros H. apply dict_get_Return_inv in H. destruct H as (items & -> & ->).
  cbn [lookup_path]. destruct (assoc k items); reflexivity.
Qed.

(** The last level: the value found, or the default. *)
Lemma lookup_path_leaf (o : pyval) (k : string) (d v : pyval) :
  dict_get o k d = Return v ->
  v = match lookup_path o [k] with Some x => x | None => d end.
Proof.
  intros H. apply dict_get_Return_inv in H. destruct H as (items & -> & ->).
  cbn [lookup_path]. destruct (assoc k items); reflexivity.
Qed.

Lemma leaf_present (o : pyval) (k : string) (d v : pyval) :
  truthy d = false ->
  dict_get o k d = Return v ->
  present (lookup_path o [k]) = truthy v /\
  (truthy v = true -> lookup_path o [k] = Some v).
Proof.
  intros Hd H. apply lookup_path_leaf in H. subst v.
  destruct (lookup_path o [k]) as [x|]; simpl.
  - split; [reflexivity | intros _; reflexivity].
  - rewrite Hd. split; [reflexivity | intros H; discriminate H].
Qed.

Lemma lookup_path_app (v : pyval) (p q : list string) :
  lookup_path v (p ++ q) =
  match lookup_path v p with
  | Some w => lookup_path w q
  | None => None
  end.
Proof.
  revert v. induction p as [|k p IH]; intros v; [reflexivity|].
  cbn [app lookup_path]. destruct v; try reflexivity.
  destruct (assoc k items); [apply IH | reflexivity].
Qed.

(** Nothing is found below a missing object. *)
Lemma lookup_path_below_missing (v : pyval) (p q : list string) :
  lookup_path v p = None -> lookup_path v (p ++ q) = None.
Proof. intros H. rewrite lookup_path_app, H. reflexivity. Qed.

Lemma str_truthy_nonempty (s : string) : str_truthy s = true <-> s <> "".
Proof.
  destruct s; simpl; split; intros H; congruence.
Qed.

(** For a string, present means not empty. *)
Lemma present_str (s : string) : present (Some (PStr s)) = true <-> s <> "".
Proof. apply str_truthy_nonempty. Qed.

Lemma or_None_not_empty_str (v : pyval) : or_None v <> PStr "".
Proof.
  unfold or_None. destruct (truthy v) eqn:T; [|discriminate].
  intros ->. discriminate T.
Qed.

Lemma or_None_cases (v : pyval) :
  or_None v = PNone \/ (or_None v = v /\ truthy v = true).
Proof.
  unfold or_None. destruct (truthy v); [right; split; reflexivity | left; reflexivity].
Qed.

Ltac step_bind H :=
  let a := fresh "x" in
  let E := fresh "E" in
  apply rbind_Return_inv in H; destruct H as (a & E & H).

Lemma extract_fields_steps (event : pyval) (f : ExtractedFields) :
  extract_fields event = Return f -> extraction_steps event f.
Proof.
  unfold extract_fields. intros H.
  do 17 step_bind H.
  inversion H; subst f; clear H.
  econstructor; eassumption.
Qed.

(** Below [Details.ContactData], a completed extraction reads the event's
    paths from the [contact_data] object it assigned. *)
Lemma contact_path (event details contact_data : pyval)
                   (k : string) (rest : list string) :
  dict_get event "Details" (PDict []) = Return details ->
  dict_get details "ContactData" (PDict []) = Return contact_data ->
  lookup_path event (in_contact (k :: rest)) = lookup_path contact_data (k :: rest).
Proof.
  intros Hd Hc. unfold in_contact, ContactData_path. cbn [app].
  rewrite (lookup_path_descend _ _ _ _ _ Hd).
  apply (lookup_path_descend _ _ _ _ _ Hc).
Qed.

(** [a.get(ka) or b.get(kb) or None] *)
Lemma fallback_two (oa ob : pyval) (ka kb : string) (v : pyval) :
  py_or (py_or (dict_get oa ka PNone) (dict_get ob kb PNone)) (Return PNone)
    = Return v ->
  (present (lookup_path oa [ka]) = true -> lookup_path oa [ka] = Some v)
  /\ (present (lookup_path oa [ka]) = false ->
      present (lookup_path ob [kb]) = true -> lookup_path ob [kb] = Some v)
  /\ (present (lookup_path oa [ka]) = false ->
      present (lookup_path ob [kb]) = false -> v = PNone).
Proof.
  intros H.
  apply py_or_Return_inv in H. destruct H as (r & Hin & Hr).
  apply py_or_Return_inv in Hin. destruct Hin as (a & Ha & Hab).
  destruct (leaf_present _ _ PNone _ eq_refl Ha) as [Pa Fa]. rewrite Pa.
  destruct Hab as [[Ta ->] | [Ta Hb]].
  - destruct Hr as [[_ ->] | [Tr _]]; [|congruence].
    repeat split; intros; try congruence. now apply Fa.
  - destruct (leaf_present _ _ PNone _ eq_refl Hb) as [Pb Fb]. rewrite Pb.
    destruct Hr as [[Tr ->] | [Tr Hn]].
    + repeat split; intros; try congruence. now apply Fb.
    + inversion Hn; subst v. repeat split; intros; try congruence.
Qed.

(** [a.get(ka) or b.get(kb) or c.get(kc) or None] *)
Lemma fallback_three (oa ob oc : pyval) (ka kb kc : string) (v : pyval) :
  py_or (py_or (py_or (dict_get oa ka PNone) (dict_get ob kb PNone))
               (dict_get oc kc PNone))
        (Return PNone) = Return v ->
  (present (lookup_path oa [ka]) = true -> lookup_path oa [ka] = Some v)
  /\ (present (lookup_path oa [ka]) = false ->
      present (lookup_path ob [kb]) = true -> lookup_path ob [kb] = Some v)
  /\ (present (lookup_path oa [ka]) = false ->
      present (lookup_path ob [kb]) = false ->
      present (lookup_path oc [kc]) = true -> lookup_path oc [kc] = Some v)
  /\ (present (lookup_path oa [ka]) = false ->
      present (lookup_path ob [kb]) = false ->
      present (lookup_path oc [kc]) = false -> v = PNone).
Proof.
  intros H.
  apply py_or_Return_inv in H. destruct H as (r & Hin & Hr).
  apply py_or_Return_inv in Hin. destruct Hin as (q & Hin & Hq).
  apply py_or_Return_inv in Hin. destruct Hin as (a & Ha & Hab).
  destruct (leaf_present _ _ PNone _ eq_refl Ha) as [Pa Fa]. rewrite Pa.
  destruct Hab as [[Ta ->] | [Ta Hb]].
  - destruct Hq as [[_ ->] | [Tq _]]; [|congruence].
    destruct Hr as [[_ ->] | [Tr _]]; [|congruence].
    repeat split; intros; try congruence. now apply Fa.
  - destruct (leaf_present _ _ PNone _ eq_refl Hb) as [Pb Fb]. rewrite Pb.
    destruct Hq as [[Tq ->] | [Tq Hc]].
    + destruct Hr as [[_ ->] | [Tr _]]; [|congruence].
      repeat split; intros; try congruence. now apply Fb.
    + destruct (leaf_present _ _ PNone _ eq_refl Hc) as [Pc Fc]. rewrite Pc.
      destruct Hr as [[Tr ->] | [Tr Hn]].
      * repeat split; intros; try congruence. now apply Fc.
      * inversion Hn; subst v. repeat split; intros; congruence.
Qed.

(* ================================================================= *)
(** ** Fallback chains of the agent fields *)

(** X13.  Where the extraction completes, the extracted [agent_arn]
    follows a two-tier precedence in which
    an empty string counts as absent: when [ContactData.Agent.ARN] is
    present (there and not empty) the extracted value is that one; else when
    [ContactData.Attributes.agent_arn] is present the extracted value is
    that one; else the extracted value is [None]. *)
Theorem agent_arn_precedence (event : pyval) (f : ExtractedFields) :
  extract_fields event = Return f ->
  (present (lookup_path event (in_contact ["Agent"; "ARN"])) = true ->
   lookup_path event (in_contact ["Agent"; "ARN"]) = Some (agent_arn f))
  /\ (present (lookup_path event (in_contact ["Agent"; "ARN"])) = false ->
      present (lookup_path event (in_contact ["Attributes"; "agent_arn"])) = true ->
      lookup_path event (in_contact ["Attributes"; "agent_arn"]) = Some (agent_arn f))
  /\ (present (lookup_path event (in_contact ["Agent"; "ARN"])) = false ->
      present (lookup_path event (in_contact ["Attributes"; "agent_arn"])) = false ->
      agent_arn f = PNone).
Proof.
  intros H. destruct (extract_fields_steps _ _ H).
  rewrite !(contact_path _ _ _ _ _ get_details get_contact_data).
  rewrite (lookup_path_descend _ _ _ _ _ get_agent_data).
  rewrite (lookup_path_descend _ _ _ _ _ get_attributes).
  now apply fallback_two.
Qed.

Lemma agent_arn_precedence_witness :
  extract_fields Sample.event_agent_attributes_only
    = Return Sample.fields_agent_attributes_only
  /\ lookup_path Sample.event_agent_attributes_only
       (in_contact ["Attributes"; "agent_arn"]) = Some (PStr "A2").
Proof.
  split; [reflexivity|].
  apply (agent_arn_precedence Sample.event_agent_attributes_only
           Sample.fields_agent_attributes_only eq_refl);
    reflexivity.
Defined.

(** X14.  Where the extraction completes, the extracted [agent_username]
    is the first present value among
    [ContactData.Agent.Username], [ContactData.Attributes.agent_username]
    and [ContactData.Name], an empty string counting as absent, and is
    [None] when none of the three is present. *)
Theorem agent_username_precedence (event : pyval) (f : ExtractedFields) :
  extract_fields event = Return f ->
  (present (lookup_path event (in_contact ["Agent"; "Username"])) = true ->
   lookup_path event (in_contact ["Agent"; "Username"]) = Some (agent_username f))
  /\ (present (lookup_path event (in_contact ["Agent"; "Username"])) = false ->
      present (lookup_path event (in_contact ["Attributes"; "agent_username"])) = true ->
      lookup_path event (in_contact ["Attributes"; "agent_username"])
        = Some (agent_username f))
  /\ (present (lookup_path event (in_contact ["Agent"; "Username"])) = false ->
      present (lookup_path event (in_contact ["Attributes"; "agent_username"])) = false ->
      present (lookup_path event (in_contact ["Name"])) = true ->
      lookup_path event (in_contact ["Name"]) = Some (agent_username f))
  /\ (present (lookup_path event (in_contact ["Agent"; "Username"])) = false ->
      present (lookup_path event (in_contact ["Attributes"; "agent_username"])) = false ->
      present (lookup_path event (in_contact ["Name"])) = false ->
      agent_username f = PNone).
Proof.
  intros H. destruct (extract_fields_steps _ _ H).
  rewrite !(contact_path _ _ _ _ _ get_details get_contact_data).
  rewrite (lookup_path_descend _ _ _ _ _ get_agent_data).
  rewrite (lookup_path_descend _ _ _ _ _ get_attributes).
  now apply fallback_three.
Qed.

Lemma agent_username_precedence_witness :
  extract_fields Sample.event_name_only = Return Sample.fields_name_only
  /\ lookup_path Sample.event_name_only (in_contact ["Name"]) = Some (PStr "U3").
Proof.
  split; [reflexivity|].
  apply (agent_username_precedence Sample.event_name_only
           Sample.fields_name_only eq_refl);
    reflexivity.
Defined.

(* ================================================================= *)
(** ** The handler, case by case *)

Lemma http_calls_app (t1 t2 : list effect) :
  http_calls (t1 ++ t2) = http_calls t1 ++ http_calls t2.
Proof.
  induction t1 as [|e t1 IH]; [reflexivity|].
  destruct e; cbn [app http_calls]; rewrite IH; reflexivity.
Qed.

(** Once [Request(...)] has returned, one request is handed over whatever
    the network answers, and only one; none when [Request(...)] raises. *)
Lemma deliver_calls (urlopen : Request -> urlopen_outcome)
                    (cfg : Config) (payload : pyval) :
  http_calls (trace (deliver urlopen cfg payload))
    = opened (urlopen (build_request cfg payload)) (build_request cfg payload).
Proof.
  unfold deliver, try_except, bind, print, lift, raise, ret, Utf8.decode,
    trace, opened.
  destruct (urlopen (build_request cfg payload)) as [cls msg | status body | e].
  - reflexivity.
  - destruct (Utf8.valid body); reflexivity.
  - destruct e as [ty at_ | | code fp | reason | cls msg]; try reflexivity.
    destruct fp as [[bs | cls msg]|]; [destruct (Utf8.valid bs)| |]; reflexivity.
Qed.

(** The [try] block lets through what the clause for [HTTPError] raises:
    the error of reading the body, or of decoding it. *)
Lemma deliver_outcome (urlopen : Request -> urlopen_outcome)
                      (cfg : Config) (payload : pyval) :
  outcome (deliver urlopen cfg payload) =
  match escapes (urlopen (build_request cfg payload)) with
  | Some e => Raise e
  | None => Return tt
  end.
Proof.
  unfold deliver, try_except, bind, print, lift, raise, ret, Utf8.decode,
    outcome, escapes.
  destruct (urlopen (build_request cfg payload)) as [cls msg | status body | e].
  - reflexivity.
  - destruct (Utf8.valid body); reflexivity.
  - destruct e as [ty at_ | | code fp | reason | cls msg]; try reflexivity.
    destruct fp as [[bs | cls msg]|]; [destruct (Utf8.valid bs)| |]; reflexivity.
Qed.

Lemma handler_no_stream (cfg : Config) (urlopen : Request -> urlopen_outcome)
                        (event context : pyval) (f : ExtractedFields) :
  extract_fields event = Return f ->
  truthy (stream_arn f) = false ->
  lambda_handler cfg urlopen event context =
  ([Printed (LogEventReceived event); Printed LogNoStreamARN],
   Return missing_stream_arn).
Proof.
  intros H Hs. unfold lambda_handler. rewrite H.
  cbn [bind print lift app]. rewrite Hs. reflexivity.
Qed.

Lemma handler_no_contact (cfg : Config) (urlopen : Request -> urlopen_outcome)
                         (event context : pyval) (f : ExtractedFields) :
  extract_fields event = Return f ->
  truthy (stream_arn f) = true ->
  truthy (contact_id f) = false ->
  lambda_handler cfg urlopen event context =
  ([Printed (LogEventReceived event); Printed LogNoContactId],
   Return missing_contact_id).
Proof.
  intros H Hs Hc. unfold lambda_handler. rewrite H.
  cbn [bind print lift app]. rewrite Hs, Hc. reflexivity.
Qed.

(** After validation: the payload is printed, delivery is attempted when a
    base URL is set, and the handler returns unless delivery raised. *)
Lemma handler_valid (cfg : Config) (urlopen : Request -> urlopen_outcome)
                    (event context : pyval) (f : ExtractedFields) :
  extract_fields event = Return f ->
  truthy (stream_arn f) = true ->
  truthy (contact_id f) = true ->
  lambda_handler cfg urlopen event context =
  (Printed (LogEventReceived event)
     :: Printed (LogPayload (build_payload f))
     :: (if str_truthy (WHISPA_API_URL cfg)
         then trace (deliver urlopen cfg (build_payload f))
         else [Printed LogNotConfigured]),
   if str_truthy (WHISPA_API_URL cfg)
   then match outcome (deliver urlopen cfg (build_payload f)) with
        | Return _ => Return (success f)
        | Raise e => Raise e
        end
   else Return (success f)).
Proof.
  intros H Hs Hc. unfold lambda_handler. rewrite H.
  cbn [bind print lift app]. rewrite Hs, Hc. cbn [negb].
  destruct (str_truthy (WHISPA_API_URL cfg)).
  - destruct (deliver urlopen cfg (build_payload f)) as [t [u|e]];
      cbn [bind ret app trace outcome fst snd]; rewrite ?app_nil_r; reflexivity.
  - reflexivity.
Qed.

(** Delivery that does not fail in its own error handling leaves the
    success record untouched. *)
Lemma delivery_contained (cfg : Config) (urlopen : Request -> urlopen_outcome)
                         (event context : pyval) (f : ExtractedFields) :
  extract_fields event = Return f ->
  truthy (stream_arn f) = true ->
  truthy (contact_id f) = true ->
  escapes (urlopen (build_request cfg (build_payload f))) = None ->
  outcome (lambda_handler cfg urlopen event context) = Return (success f).
Proof.
  intros H Hs Hc Hu. rewrite (handler_valid _ _ _ _ _ H Hs Hc).
  cbn [outcome snd]. rewrite deliver_outcome, Hu.
  destruct (str_truthy (WHISPA_API_URL cfg)); reflexivity.
Qed.

(** X11.  Without a base URL nothing is sent: the handler prints the event,
    the payload and the warning, and returns the success record. *)
Lemma no_base_url_no_call (cfg : Config) (urlopen : Request -> urlopen_outcome)
                          (event context : pyval) (f : ExtractedFields) :
  extract_fields event = Return f ->
  truthy (stream_arn f) = true ->
  truthy (contact_id f) = true ->
  str_truthy (WHISPA_API_URL cfg) = false ->
  lambda_handler cfg urlopen event context =
  ([Printed (LogEventReceived event); Printed (LogPayload (build_payload f));
    Printed LogNotConfigured],
   Return (success f)).
Proof.
  intros H Hs Hc Hu. rewrite (handler_valid _ _ _ _ _ H Hs Hc), Hu. reflexivity.
Qed.



(* ================================================================= *)
(** ** Validation *)

(** X12.  Where the extraction completes, validation is ordered and stops
    at the first failure.  When the
    extracted [stream_arn] is absent (missing, hence defaulted to the empty
    string, or empty) the handler returns the 400 record for the missing
    stream and hands no request to the HTTP client, whatever the other
    fields are; otherwise, when the extracted [contact_id] is absent, it
    returns the 400 record for the missing contact id and hands no request
    over either. *)
Theorem validation_short_circuit
    (cfg : Config) (urlopen : Request -> urlopen_outcome)
    (event context : pyval) (f : ExtractedFields) :
  extract_fields event = Return f ->
  (truthy (stream_arn f) = false ->
   outcome (lambda_handler cfg urlopen event context) = Return missing_stream_arn
   /\ http_calls (trace (lambda_handler cfg urlopen event context)) = [])
  /\ (truthy (stream_arn f) = true ->
      truthy (contact_id f) = false ->
      outcome (lambda_handler cfg urlopen event context) = Return missing_contact_id
      /\ http_calls (trace (lambda_handler cfg urlopen event context)) = []).
Proof.
  intros H. split.
  - intros Hs. rewrite (handler_no_stream _ _ _ _ _ H Hs). split; reflexivity.
  - intros Hs Hc. rewrite (handler_no_contact _ _ _ _ _ H Hs Hc). split; reflexivity.
Qed.

Lemma validation_short_circuit_witness :
  extract_fields Sample.event_no_stream = Return Sample.fields_no_stream
  /\ outcome (lambda_handler Sample.cfg_backend Sample.backend_ok
                Sample.event_no_stream PNone)
     = Return missing_stream_arn
  /\ http_calls (trace (lambda_handler Sample.cfg_backend Sample.backend_ok
                          Sample.event_no_stream PNone)) = [].
Proof.
  split; [reflexivity|].
  apply (validation_short_circuit Sample.cfg_backend Sample.backend_ok
           Sample.event_no_stream PNone Sample.fields_no_stream eq_refl).
  reflexivity.
Defined.

(* ================================================================= *)
(** ** Payload and request *)






(** Every item of the payload is a required field as extracted, or an
    optional field passed through [or None]. *)
Lemma payload_items (f : ExtractedFields) (k : string) (v : pyval) :
  In (k, v) (dict_items (build_payload f)) ->
  (In (k, v) (required_fields f) /\ (v = contact_id f \/ v = stream_arn f))
  \/ exists w, In (k, w) (optional_fields f) /\ v = or_None w.
Proof.
  cbn [build_payload dict_items]. intros Hin.
  destruct Hin as [E|Hin];
    [inversion E; left; split; [left; reflexivity | left; reflexivity]|].
  destruct Hin as [E|Hin];
    [inversion E; left; split; [right; left; reflexivity | right; reflexivity]|].
  right.
  repeat (destruct Hin as [E|Hin];
          [ inversion E;
            match goal with
            | |- exists w, _ /\ or_None ?x = or_None w =>
                exists x; split; [cbn; tauto | reflexivity]
            end
          | ]).
  destruct Hin.
Qed.

(** C8, as the handler has it.  After validation every field of the payload
    is [None] or a value that is not an empty one, so no field is ever the
    empty string; and when the extracted values are strings (or [None]),
    every field of the payload is a non-empty string or [None].  The
    handler does not check the types of what it reads, so a number or a
    container found in the event is passed on as it is. *)
Theorem payload_fields_normalised (event : pyval) (f : ExtractedFields) :
  extract_fields event = Return f ->
  truthy (stream_arn f) = true ->
  truthy (contact_id f) = true ->
  forall k v, In (k, v) (dict_items (build_payload f)) ->
    v <> PStr ""
    /\ (v = PNone \/ truthy v = true)
    /\ ((forall k' w, In (k', w) (required_fields f ++ optional_fields f) ->
                      str_or_null w = true) ->
        nonempty_str_or_null v = true).
Proof.
  intros _ Hs Hc k v Hin.
  destruct (payload_items _ _ _ Hin) as [[Hreq Hv] | (w & Hopt & ->)].
  - assert (T : truthy v = true) by (destruct Hv as [->| ->]; assumption).
    split; [intros ->; discriminate T|].
    split; [right; exact T|].
    intros Hty. specialize (Hty k v (in_or_app _ _ _ (or_introl Hreq))).
    destruct v; simpl in *; congruence.
  - split; [apply or_None_not_empty_str|].
    destruct (or_None_cases w) as [E|[E T]]; rewrite E.
    + split; [left; reflexivity | reflexivity].
    + split; [right; exact T|].
      intros Hty. specialize (Hty k w (in_or_app _ _ _ (or_intror Hopt))).
      destruct w; simpl in *; congruence.
Qed.

Lemma payload_fields_normalised_witness :
  extract_fields Sample.event_numeric_instance
    = Return Sample.fields_numeric_instance
  /\ (PInt 5 <> PStr "" /\ (PInt 5 = PNone \/ truthy (PInt 5) = true)).
Proof.
  split; [reflexivity|].
  destruct (payload_fields_normalised Sample.event_numeric_instance
              Sample.fields_numeric_instance eq_refl eq_refl eq_refl
              "instance_arn" (PInt 5)) as (A & B & _).
  - cbn. tauto.
  - split; assumption.
Defined.

(** C8 as stated fails where the event carries a value that is not a
    string: a numeric [InstanceARN] passes validation and reaches the
    payload as the number it is. *)
Lemma payload_field_not_a_string :
  extract_fields Sample.event_numeric_instance
    = Return Sample.fields_numeric_instance
  /\ truthy (stream_arn Sample.fields_numeric_instance) = true
  /\ truthy (contact_id Sample.fields_numeric_instance) = true
  /\ map (fun c => data (fst c))
         (http_calls (trace (lambda_handler Sample.cfg_backend Sample.backend_ok
                               Sample.event_numeric_instance PNone)))
     = [build_payload Sample.fields_numeric_instance]
  /\ In ("instance_arn", PInt 5)
        (dict_items (build_payload Sample.fields_numeric_instance))
  /\ nonempty_str_or_null (PInt 5) = false.
Proof.
  repeat split; try reflexivity. cbn. tauto.
Qed.

(* ================================================================= *)
(** ** Events whose levels are mappings *)

Lemma py_or_Return_total (a b : pyval) :
  py_or (Return a) (Return b) = Return (if truthy a then a else b).
Proof. unfold py_or. destruct (truthy a); reflexivity. Qed.

Lemma descend_dict (o : pyval) (k : string) :
  is_dict o = true ->
  (forall w, lookup_path o [k] = Some w -> is_dict w = true) ->
  exists items, dict_get o k (PDict []) = Return (PDict items).
Proof.
  intros Ho Hk. apply is_dict_inv in Ho. destruct Ho as [its ->].
  cbn [dict_get lookup_path] in *. destruct (assoc k its) as [x|].
  - destruct (is_dict_inv x (Hk x eq_refl)) as [xs ->]. now exists xs.
  - now exists [].
Qed.

(** On an event whose intermediate objects are mappings or missing, the
    extraction runs to its end. *)
Lemma well_shaped_extracts (event : pyval) :
  well_shaped event -> exists f, extract_fields event = Return f.
Proof.
  intros [Hev Hp].
  assert (Hin : forall p, In p (map in_contact
            [ ["CustomerEndpoint"]; ["Agent"]; ["Attributes"]; ["Queue"];
              ["MediaStreams"]; ["MediaStreams"; "Customer"];
              ["MediaStreams"; "Customer"; "Audio"] ]) ->
            In p intermediate_paths).
  { intros p H. right. right. exact H. }
  destruct (descend_dict event "Details" Hev) as [di Hd].
  { intros w. apply Hp. left. reflexivity. }
  destruct (descend_dict (PDict di) "ContactData" eq_refl) as [cdi Hc].
  { intros w Hw. apply (Hp ContactData_path); [right; left; reflexivity|].
    unfold ContactData_path. now rewrite (lookup_path_descend _ _ _ _ _ Hd). }
  pose proof (fun k rest => contact_path _ _ _ k rest Hd Hc) as Hpath.
  assert (Hsub : forall k, In (in_contact [k]) intermediate_paths ->
                 exists its, dict_get (PDict cdi) k (PDict []) = Return (PDict its)).
  { intros k Hk. apply descend_dict; [reflexivity|].
    intros w Hw. apply (Hp _ _ Hk). now rewrite Hpath. }
  destruct (Hsub "CustomerEndpoint") as [cei Hce]; [apply Hin; cbn; tauto|].
  destruct (Hsub "Agent") as [agi Hag]; [apply Hin; cbn; tauto|].
  destruct (Hsub "Attributes") as [ati Hat]; [apply Hin; cbn; tauto|].
  destruct (Hsub "Queue") as [qi Hq]; [apply Hin; cbn; tauto|].
  destruct (Hsub "MediaStreams") as [msi Hms]; [apply Hin; cbn; tauto|].
  destruct (descend_dict (PDict msi) "Customer" eq_refl) as [cui Hcu].
  { intros w Hw.
    apply (Hp (in_contact ["MediaStreams"; "Customer"])); [apply Hin; cbn; tauto|].
    now rewrite Hpath, (lookup_path_descend _ _ _ _ _ Hms). }
  destruct (descend_dict (PDict cui) "Audio" eq_refl) as [aui Hau].
  { intros w Hw.
    apply (Hp (in_contact ["MediaStreams"; "Customer"; "Audio"]));
      [apply Hin; cbn; tauto|].
    now rewrite Hpath, (lookup_path_descend _ _ _ _ _ Hms),
      (lookup_path_descend _ _ _ _ _ Hcu). }
  unfold extract_fields.
  rewrite Hd; cbn [rbind]. rewrite Hc; cbn [rbind].
  rewrite (dict_get_dict cdi "ContactId"); cbn [rbind].
  rewrite (dict_get_dict cdi "InstanceARN"); cbn [rbind].
  rewrite Hce; cbn [rbind]. rewrite (dict_get_dict cei); cbn [rbind].
  rewrite Hag; cbn [rbind]. rewrite Hat; cbn [rbind].
  rewrite !(dict_get_dict agi), !(dict_get_dict ati), (dict_get_dict cdi "Name").
  rewrite !py_or_Return_total; cbn [rbind].
  rewrite Hq; cbn [rbind]. rewrite (dict_get_dict qi); cbn [rbind].
  rewrite (dict_get_dict cdi "InitiationMethod"); cbn [rbind].
  rewrite Hms; cbn [rbind]. rewrite Hcu; cbn [rbind]. rewrite Hau; cbn [rbind].
  rewrite (dict_get_dict aui); cbn [rbind].
  eexists. reflexivity.
Qed.

(** What each singly-sourced field is read from: the value at its path, or
    the empty string when nothing is there. *)
Lemma extract_fields_reads (event : pyval) (f : ExtractedFields) :
  extract_fields event = Return f ->
  let at_path p :=
    match lookup_path event (in_contact p) with Some v => v | None => PStr "" end in
  contact_id f = at_path ["ContactId"]
  /\ instance_arn f = at_path ["InstanceARN"]
  /\ customer_number f = at_path ["CustomerEndpoint"; "Address"]
  /\ queue_name f = at_path ["Queue"; "Name"]
  /\ initiation_method f = at_path ["InitiationMethod"]
  /\ stream_arn f = at_path ["MediaStreams"; "Customer"; "Audio"; "StreamARN"].
Proof.
  intros H. destruct (extract_fields_steps _ _ H). cbv beta zeta.
  rewrite !(contact_path _ _ _ _ _ get_details get_contact_data).
  rewrite (lookup_path_descend _ _ _ _ _ get_customer_endpoint).
  rewrite (lookup_path_descend _ _ _ _ _ get_queue_data).
  rewrite (lookup_path_descend _ _ _ _ _ get_media_streams).
  rewrite (lookup_path_descend _ _ _ _ _ get_customer).
  rewrite (lookup_path_descend _ _ _ _ _ get_customer_audio).
  repeat split; eapply lookup_path_leaf; eassumption.
Qed.

(** X10.  A missing level makes what lies below it absent: a field read
    through an intermediate object that is not there comes out as the empty
    string, and an agent field none of whose sources is there comes out as
    [None]. *)
Lemma missing_level_absent (event : pyval) (f : ExtractedFields) :
  extract_fields event = Return f ->
  (forall p q, lookup_path event (in_contact p) = None ->
     (p ++ q = ["ContactId"] -> contact_id f = PStr "")
     /\ (p ++ q = ["InstanceARN"] -> instance_arn f = PStr "")
     /\ (p ++ q = ["CustomerEndpoint"; "Address"] -> customer_number f = PStr "")
     /\ (p ++ q = ["Queue"; "Name"] -> queue_name f = PStr "")
     /\ (p ++ q = ["InitiationMethod"] -> initiation_method f = PStr "")
     /\ (p ++ q = ["MediaStreams"; "Customer"; "Audio"; "StreamARN"] ->
         stream_arn f = PStr ""))
  /\ (lookup_path event (in_contact ["Agent"; "ARN"]) = None ->
      lookup_path event (in_contact ["Attributes"; "agent_arn"]) = None ->
      agent_arn f = PNone)
  /\ (lookup_path event (in_contact ["Agent"; "Username"]) = None ->
      lookup_path event (in_contact ["Attributes"; "agent_username"]) = None ->
      lookup_path event (in_contact ["Name"]) = None ->
      agent_username f = PNone).
Proof.
  intros H. split; [|split].
  - intros p q Hmiss.
    assert (Hbelow : lookup_path event (in_contact (p ++ q)) = None).
    { unfold in_contact in *. rewrite app_assoc.
      now apply lookup_path_below_missing. }
    destruct (extract_fields_reads _ _ H) as (A & B & C & D & E & F).
    repeat split; intros Hpq; rewrite Hpq in Hbelow;
      [rewrite A | rewrite B | rewrite C | rewrite D | rewrite E | rewrite F];
      now rewrite Hbelow.
  - destruct (extract_fields_steps _ _ H).
    rewrite !(contact_path _ _ _ _ _ get_details get_contact_data).
    rewrite (lookup_path_descend _ _ _ _ _ get_agent_data).
    rewrite (lookup_path_descend _ _ _ _ _ get_attributes).
    intros Ha Hb. apply (fallback_two _ _ _ _ _ get_agent_arn);
      [rewrite Ha | rewrite Hb]; reflexivity.
  - destruct (extract_fields_steps _ _ H).
    rewrite !(contact_path _ _ _ _ _ get_details get_contact_data).
    rewrite (lookup_path_descend _ _ _ _ _ get_agent_data).
    rewrite (lookup_path_descend _ _ _ _ _ get_attributes).
    intros Ha Hb Hc. apply (fallback_three _ _ _ _ _ _ _ get_agent_username);
      [rewrite Ha | rewrite Hb | rewrite Hc]; reflexivity.
Qed.

(** Whatever the handler returns has one of the two shapes. *)
Lemma returned_fixed_shape (cfg : Config) (urlopen : Request -> urlopen_outcome)
                           (event context r : pyval) :
  outcome (lambda_handler cfg urlopen event context) = Return r -> fixed_shape r.
Proof.
  destruct (extract_fields event) as [f|e] eqn:H.
  - destruct (truthy (stream_arn f)) eqn:Hs.
    + destruct (truthy (contact_id f)) eqn:Hc.
      * rewrite (handler_valid _ _ _ _ _ H Hs Hc). cbn [outcome snd].
        intros Hr. right. exists (contact_id f), (stream_arn f).
        destruct (str_truthy (WHISPA_API_URL cfg));
          [destruct (outcome (deliver urlopen cfg (build_payload f)))|];
          now inversion Hr.
      * rewrite (handler_no_contact _ _ _ _ _ H Hs Hc). intros Hr. left.
        eexists. now inversion Hr.
    + rewrite (handler_no_stream _ _ _ _ _ H Hs). intros Hr. left.
      eexists. now inversion Hr.
  - unfold lambda_handler. rewrite H. intros Hr. discriminate Hr.
Qed.

(** X5.  On an event whose levels are mappings, the handler returns one of
    the two records unless the clause for [HTTPError] fails to read or to
    decode the error body. *)
Lemma well_shaped_returns (cfg : Config) (urlopen : Request -> urlopen_outcome)
                          (event context : pyval) :
  well_shaped event ->
  (forall req, escapes (urlopen req) = None) ->
  exists r, outcome (lambda_handler cfg urlopen event context) = Return r
            /\ fixed_shape r.
Proof.
  intros Hw Hu. destruct (well_shaped_extracts _ Hw) as [f H].
  assert (E : exists r, outcome (lambda_handler cfg urlopen event context) = Return r).
  { destruct (truthy (stream_arn f)) eqn:Hs.
    - destruct (truthy (contact_id f)) eqn:Hc.
      + eexists. apply (delivery_contained _ _ _ _ _ H Hs Hc). apply Hu.
      + rewrite (handler_no_contact _ _ _ _ _ H Hs Hc). now eexists.
    - rewrite (handler_no_stream _ _ _ _ _ H Hs). now eexists. }
  destruct E as [r Hr]. exists r. split; [exact Hr|].
  eapply returned_fixed_shape; exact Hr.
Qed.

(** X4.  The value returned, when one is returned, is a function of the
    event: neither the configuration nor the backend's answer enters it. *)
Lemma returned_value_determined
    (cfg1 cfg2 : Config) (urlopen1 urlopen2 : Request -> urlopen_outcome)
    (event context1 context2 r1 r2 : pyval) :
  outcome (lambda_handler cfg1 urlopen1 event context1) = Return r1 ->
  outcome (lambda_handler cfg2 urlopen2 event context2) = Return r2 ->
  r1 = r2.
Proof.
  destruct (extract_fields event) as [f|e] eqn:H.
  - destruct (truthy (stream_arn f)) eqn:Hs.
    + destruct (truthy (contact_id f)) eqn:Hc.
      * rewrite !(handler_valid _ _ _ _ _ H Hs Hc). cbn [outcome snd].
        intros H1 H2.
        assert (E1 : r1 = success f).
        { destruct (str_truthy (WHISPA_API_URL cfg1));
            [destruct (outcome (deliver urlopen1 cfg1 (build_payload f)))|];
            now inversion H1. }
        assert (E2 : r2 = success f).
        { destruct (str_truthy (WHISPA_API_URL cfg2));
            [destruct (outcome (deliver urlopen2 cfg2 (build_payload f)))|];
            now inversion H2. }
        congruence.
      * rewrite !(handler_no_contact _ _ _ _ _ H Hs Hc). cbn. congruence.
    + rewrite !(handler_no_stream _ _ _ _ _ H Hs). cbn. congruence.
  - unfold lambda_handler. rewrite H. intros Hr. discriminate Hr.
Qed.

(* ================================================================= *)
(** ** Where a fault leaves the handler *)

(** C2.  For an event that passes validation the handler is to return the
    success record with the extracted [contactId] and [streamArn] whatever
    becomes of the delivery.  It does not when the backend answers with an
    error status and a body that is not UTF-8 text: the clause for
    [HTTPError] decodes the body outside any [try], and the
    [UnicodeDecodeError] leaves the handler in place of the success
    record. *)
Theorem error_body_decoding_escapes :
  extract_fields Sample.event_minimal = Return Sample.fields_minimal
  /\ truthy (stream_arn Sample.fields_minimal) = true
  /\ truthy (contact_id Sample.fields_minimal) = true
  /\ Sample.backend_error_binary
       (build_request Sample.cfg_backend (build_payload Sample.fields_minimal))
     = Raises (HTTPError 500 (Some (ReadBytes [xff])))
  /\ outcome (lambda_handler Sample.cfg_backend Sample.backend_error_binary
                Sample.event_minimal PNone)
     = Raise UnicodeDecodeError
  /\ outcome (lambda_handler Sample.cfg_backend Sample.backend_error_binary
                Sample.event_minimal PNone)
     <> Return (success Sample.fields_minimal).
Proof.
  repeat split; try reflexivity. intros H. discriminate H.
Qed.

(** C7.  The handler is to end, for every event, with one of the two
    records and never with a fault.  Two faults do reach the caller: an
    intermediate object that is there but is [null] (here [Audio], as when
    media streaming was not started) makes the next [.get] raise
    [AttributeError], and an error answer with an undecodable body makes the
    clause for [HTTPError] raise [UnicodeDecodeError]. *)
Theorem fault_reaches_caller :
  (forall cfg urlopen context,
     outcome (lambda_handler cfg urlopen Sample.event_audio_null context)
     = Raise (AttributeError "NoneType" "get"))
  /\ outcome (lambda_handler Sample.cfg_backend Sample.backend_error_binary
                Sample.event_minimal PNone)
     = Raise UnicodeDecodeError
  /\ ~ (exists r,
         outcome (lambda_handler Sample.cfg_backend Sample.backend_error_binary
                    Sample.event_minimal PNone) = Return r).
Proof.
  split; [intros; reflexivity|]. split; [reflexivity|].
  intros [r H]; discriminate H.
Qed.

(** C9.  Two invocations on the same event are to give the same result,
    the delivery having no say in it.  With the same event and the same
    configuration, the handler returns the success record when the backend
    accepts the call and raises when the backend answers with an error
    status and an undecodable body. *)
Theorem outcome_varies_with_backend :
  outcome (lambda_handler Sample.cfg_backend Sample.backend_ok
             Sample.event_minimal PNone)
  = Return (success Sample.fields_minimal)
  /\ outcome (lambda_handler Sample.cfg_backend Sample.backend_error_binary
                Sample.event_minimal PNone)
     = Raise UnicodeDecodeError
  /\ outcome (lambda_handler Sample.cfg_backend Sample.backend_ok
                Sample.event_minimal PNone)
     <> outcome (lambda_handler Sample.cfg_backend Sample.backend_error_binary
                   Sample.event_minimal PNone).
Proof.
  repeat split; try reflexivity. intros H. discriminate H.
Qed.

(** C10.  Where an intermediate object is missing the handler is to read
    the fields below it as absent and still return one of the two records.
    On an event mapping without [MediaStreams], [Agent], [Attributes] and
    [CustomerEndpoint], and with [Queue] set to [null], no field is
    extracted at all: [null] is not replaced by the empty mapping and the
    lookup of the queue name raises.  And on an event that is valid but for
    the missing agent objects, the handler raises when the backend answers
    with an error status and an undecodable body. *)
Theorem missing_levels_fault :
  is_dict Sample.event_queue_null = true
  /\ lookup_path Sample.event_queue_null (in_contact ["MediaStreams"]) = None
  /\ lookup_path Sample.event_queue_null (in_contact ["Agent"]) = None
  /\ lookup_path Sample.event_queue_null (in_contact ["Queue"]) = Some PNone
  /\ extract_fields Sample.event_queue_null = Raise (AttributeError "NoneType" "get")
  /\ (forall cfg urlopen context,
        outcome (lambda_handler cfg urlopen Sample.event_queue_null context)
        = Raise (AttributeError "NoneType" "get"))
  /\ well_shaped Sample.event_minimal
  /\ lookup_path Sample.event_minimal (in_contact ["Agent"]) = None
  /\ outcome (lambda_handler Sample.cfg_backend Sample.backend_error_binary
                Sample.event_minimal PNone)
     = Raise UnicodeDecodeError.
Proof.
  repeat split; try reflexivity.
  intros p v Hin Hv. cbn in Hin.
  repeat (destruct Hin as [<-|Hin]; [vm_compute in Hv; now inversion Hv|]).
  destruct Hin.
Qed.

(* ================================================================= *)
(** ** When the extraction completes *)

Lemma py_or_truthy (a : pyval) (y : result pyval) :
  truthy a = true -> py_or (Return a) y = Return a.
Proof. intros T. unfold py_or. now rewrite T. Qed.

(** An object on which [.get] was called with success is a mapping, and it
    is what the level above holds under its key. *)
Lemma level_is_dict (o : pyval) (k : string) (x : pyval)
                    (k2 : string) (d y : pyval) :
  dict_get o k (PDict []) = Return x ->
  dict_get x k2 d = Return y ->
  forall v, lookup_path o [k] = Some v -> is_dict v = true.
Proof.
  intros Hx Hy v Hv. apply lookup_path_leaf in Hx. rewrite Hv in Hx. subst x.
  apply dict_get_Return_inv in Hy. destruct Hy as (its & -> & _). reflexivity.
Qed.

Lemma extraction_needs_levels (event : pyval) (f : ExtractedFields) :
  extract_fields event = Return f ->
  is_dict event = true
  /\ (forall p, In p strict_levels -> level_ok event p)
  /\ (level_ok event (in_contact ["Attributes"])
      \/ (present (lookup_path event (in_contact ["Agent"; "ARN"])) = true
          /\ present (lookup_path event (in_contact ["Agent"; "Username"])) = true)).
Proof.
  intros H. destruct (extract_fields_steps _ _ H).
  pose proof (fun k rest => contact_path _ _ _ k rest get_details get_contact_data)
    as Hpath.
  destruct (py_or_Return_inv _ _ _ get_agent_arn) as (r1 & Harn & _).
  destruct (py_or_Return_inv _ _ _ Harn) as (a & Ha & Hacase).
  destruct (py_or_Return_inv _ _ _ get_agent_username) as (r2 & Hun & _).
  destruct (py_or_Return_inv _ _ _ Hun) as (r3 & Hun' & _).
  destruct (py_or_Return_inv _ _ _ Hun') as (u & Hu & Hucase).
  split; [|split].
  - destruct (dict_get_Return_inv _ _ _ _ get_details) as (its & -> & _).
    reflexivity.
  - intros p Hin. unfold level_ok. cbn [strict_levels In] in Hin.
    destruct Hin as [<-|Hin];
      [exact (level_is_dict _ _ _ _ _ _ get_details get_contact_data)|].
    destruct Hin as [<-|Hin].
    { unfold ContactData_path.
      rewrite (lookup_path_descend _ _ _ _ _ get_details).
      exact (level_is_dict _ _ _ _ _ _ get_contact_data get_contact_id). }
    destruct Hin as [<-|Hin];
      [rewrite Hpath;
       exact (level_is_dict _ _ _ _ _ _ get_customer_endpoint get_customer_number)|].
    destruct Hin as [<-|Hin];
      [rewrite Hpath; exact (level_is_dict _ _ _ _ _ _ get_agent_data Ha)|].
    destruct Hin as [<-|Hin];
      [rewrite Hpath; exact (level_is_dict _ _ _ _ _ _ get_queue_data get_queue_name)|].
    destruct Hin as [<-|Hin];
      [rewrite Hpath; exact (level_is_dict _ _ _ _ _ _ get_media_streams get_customer)|].
    destruct Hin as [<-|Hin].
    { rewrite Hpath, (lookup_path_descend _ _ _ _ _ get_media_streams).
      exact (level_is_dict _ _ _ _ _ _ get_customer get_customer_audio). }
    destruct Hin as [<-|[]].
    rewrite Hpath, (lookup_path_descend _ _ _ _ _ get_media_streams),
      (lookup_path_descend _ _ _ _ _ get_customer).
    exact (level_is_dict _ _ _ _ _ _ get_customer_audio get_stream_arn).
  - unfold level_ok. rewrite !Hpath.
    rewrite !(lookup_path_descend _ _ _ _ _ get_agent_data).
    destruct (leaf_present _ _ PNone _ eq_refl Ha) as [Pa _].
    destruct (leaf_present _ _ PNone _ eq_refl Hu) as [Pu _].
    rewrite Pa, Pu.
    destruct Hacase as [[Ta _] | [_ Hb]];
      [|left; exact (level_is_dict _ _ _ _ _ _ get_attributes Hb)].
    destruct Hucase as [[Tu _] | [_ Hb]];
      [right; split; assumption
      |left; exact (level_is_dict _ _ _ _ _ _ get_attributes Hb)].
Qed.

Lemma levels_suffice (event : pyval) :
  is_dict event = true ->
  (forall p, In p strict_levels -> level_ok event p) ->
  (level_ok event (in_contact ["Attributes"])
   \/ (present (lookup_path event (in_contact ["Agent"; "ARN"])) = true
       /\ present (lookup_path event (in_contact ["Agent"; "Username"])) = true)) ->
  exists f, extract_fields event = Return f.
Proof.
  intros Hev Hp Hattr.
  destruct (descend_dict event "Details" Hev) as [di Hd].
  { apply Hp. left. reflexivity. }
  destruct (descend_dict (PDict di) "ContactData" eq_refl) as [cdi Hc].
  { intros w Hw. apply (Hp ContactData_path); [right; left; reflexivity|].
    unfold ContactData_path. now rewrite (lookup_path_descend _ _ _ _ _ Hd). }
  pose proof (fun k rest => contact_path _ _ _ k rest Hd Hc) as Hpath.
  assert (Hsub : forall k, level_ok event (in_contact [k]) ->
                 exists its, dict_get (PDict cdi) k (PDict []) = Return (PDict its)).
  { intros k Hk. apply descend_dict; [reflexivity|].
    intros w Hw. apply Hk. now rewrite Hpath. }
  destruct (Hsub "CustomerEndpoint") as [cei Hce]; [apply Hp; cbn; tauto|].
  destruct (Hsub "Agent") as [agi Hag]; [apply Hp; cbn; tauto|].
  destruct (Hsub "Queue") as [qi Hq]; [apply Hp; cbn; tauto|].
  destruct (Hsub "MediaStreams") as [msi Hms]; [apply Hp; cbn; tauto|].
  destruct (descend_dict (PDict msi) "Customer" eq_refl) as [cui Hcu].
  { intros w Hw.
    apply (Hp (in_contact ["MediaStreams"; "Customer"])); [cbn; tauto|].
    now rewrite Hpath, (lookup_path_descend _ _ _ _ _ Hms). }
  destruct (descend_dict (PDict cui) "Audio" eq_refl) as [aui Hau].
  { intros w Hw.
    apply (Hp (in_contact ["MediaStreams"; "Customer"; "Audio"])); [cbn; tauto|].
    now rewrite Hpath, (lookup_path_descend _ _ _ _ _ Hms),
      (lookup_path_descend _ _ _ _ _ Hcu). }
  assert (Hagent : exists r1 r2,
    forall att, dict_get (PDict cdi) "Attributes" (PDict []) = Return att ->
      py_or (py_or (dict_get (PDict agi) "ARN" PNone)
                   (dict_get att "agent_arn" PNone))
            (Return PNone) = Return r1
      /\ py_or (py_or (py_or (dict_get (PDict agi) "Username" PNone)
                             (dict_get att "agent_username" PNone))
                      (dict_get (PDict cdi) "Name" PNone))
               (Return PNone) = Return r2).
  { destruct Hattr as [Hok | [Parn Pusr]].
    - destruct (Hsub "Attributes" Hok) as [ati Hat].
      do 2 eexists. intros att Hatt. rewrite Hat in Hatt. inversion Hatt; subst att.
      rewrite !dict_get_dict, !py_or_Return_total. split; reflexivity.
    - rewrite Hpath, (lookup_path_descend _ _ _ _ _ Hag) in Parn.
      rewrite Hpath, (lookup_path_descend _ _ _ _ _ Hag) in Pusr.
      cbn [lookup_path] in Parn, Pusr.
      destruct (assoc "ARN" agi) as [a|] eqn:Ea; [|discriminate Parn].
      destruct (assoc "Username" agi) as [u|] eqn:Eu; [|discriminate Pusr].
      cbn [present] in Parn, Pusr.
      exists a, u. intros att _.
      rewrite !(dict_get_dict agi), Ea, Eu.
      rewrite !(py_or_truthy a), !(py_or_truthy u) by assumption.
      split; reflexivity. }
  destruct Hagent as (r1 & r2 & Hagent).
  unfold extract_fields.
  rewrite Hd; cbn [rbind]. rewrite Hc; cbn [rbind].
  rewrite (dict_get_dict cdi "ContactId"); cbn [rbind].
  rewrite (dict_get_dict cdi "InstanceARN"); cbn [rbind].
  rewrite Hce; cbn [rbind]. rewrite (dict_get_dict cei); cbn [rbind].
  rewrite Hag; cbn [rbind].
  rewrite (dict_get_dict cdi "Attributes"); cbn [rbind].
  destruct (Hagent _ (dict_get_dict cdi "Attributes" (PDict []))) as [E1 E2].
  rewrite E1; cbn [rbind]. rewrite E2; cbn [rbind].
  rewrite Hq; cbn [rbind]. rewrite (dict_get_dict qi); cbn [rbind].
  rewrite (dict_get_dict cdi "InitiationMethod"); cbn [rbind].
  rewrite Hms; cbn [rbind]. rewrite Hcu; cbn [rbind]. rewrite Hau; cbn [rbind].
  rewrite (dict_get_dict aui); cbn [rbind].
  eexists. reflexivity.
Qed.

(** X1.  The extraction of lines 40-79 runs to its end exactly when the
    event is a mapping, each of [Details], [ContactData], [CustomerEndpoint],
    [Agent], [Queue], [MediaStreams], [Customer] and [Audio] is a mapping
    where it is there, and [Attributes] is a mapping where it is there or is
    never asked because [Agent.ARN] and [Agent.Username] are both present.
    On every other event a [.get] raises. *)
Theorem extraction_completes_iff (event : pyval) :
  (exists f, extract_fields event = Return f) <->
  (is_dict event = true
   /\ (forall p, In p strict_levels -> level_ok event p)
   /\ (level_ok event (in_contact ["Attributes"])
       \/ (present (lookup_path event (in_contact ["Agent"; "ARN"])) = true
           /\ present (lookup_path event (in_contact ["Agent"; "Username"])) = true))).
Proof.
  split.
  - intros [f H]. exact (extraction_needs_levels _ _ H).
  - intros (Hev & Hp & Hattr). now apply levels_suffice.
Qed.

(* ================================================================= *)
(** ** What can leave the handler *)

Lemma dict_get_raises (o : pyval) (k : string) (d : pyval) (e : pyexc) :
  dict_get o k d = Raise e -> get_error e.
Proof.
  destruct o; simpl; intros H; inversion H; eexists; reflexivity.
Qed.

Lemma py_or_raises (x y : result pyval) (e : pyexc) :
  (forall e', x = Raise e' -> get_error e') ->
  (forall e', y = Raise e' -> get_error e') ->
  py_or x y = Raise e -> get_error e.
Proof.
  intros Hx Hy. destruct x as [a|ex]; simpl.
  - destruct (truthy a); [intros H; discriminate H | apply Hy].
  - intros H. inversion H; subst. now apply Hx.
Qed.

Lemma Return_never_raises (v : pyval) (e : pyexc) :
  Return v = Raise e -> get_error e.
Proof. intros H. discriminate H. Qed.

Ltac raise_step H :=
  match type of H with
  | rbind ?m _ = Raise _ =>
      let E := fresh "E" in
      destruct m eqn:E; cbn [rbind] in H;
      [ | inversion H; subst;
          solve [ eapply dict_get_raises; eassumption
                | eapply py_or_raises; [| |eassumption];
                  repeat first
                    [ apply dict_get_raises
                    | apply Return_never_raises
                    | intros ? ?; eapply py_or_raises; [| |eassumption] ] ] ]
  end.

(** The extraction raises nothing but the error of a [.get] on an object
    that is no mapping. *)
Lemma extract_fields_raises (event : pyval) (e : pyexc) :
  extract_fields event = Raise e -> get_error e.
Proof.
  unfold extract_fields. intros H.
  do 17 raise_step H.
  discriminate H.
Qed.

(** X2.  When the handler raises, it is in one of two ways.  Either the
    extraction raised the [AttributeError] of a [.get] on an object that is
    no mapping, before anything but the event line was printed; or a base
    URL is set, the event passed validation, [urlopen] raised an
    [HTTPError] that carries a body, and the clause for it raised in turn:
    the exception of reading the body, or [UnicodeDecodeError] for a body
    that is not UTF-8 text. *)
Theorem handler_raises_cases
    (cfg : Config) (urlopen : Request -> urlopen_outcome)
    (event context : pyval) (e : pyexc) :
  outcome (lambda_handler cfg urlopen event context) = Raise e ->
  (extract_fields event = Raise e
   /\ get_error e
   /\ trace (lambda_handler cfg urlopen event context)
      = [Printed (LogEventReceived event)])
  \/ (str_truthy (WHISPA_API_URL cfg) = true
      /\ exists f code body,
           extract_fields event = Return f
           /\ truthy (stream_arn f) = true
           /\ truthy (contact_id f) = true
           /\ urlopen (build_request cfg (build_payload f))
              = Raises (HTTPError code (Some body))
           /\ ((exists class_name message,
                  body = ReadRaises class_name message
                  /\ e = OtherException class_name message)
               \/ (exists bs,
                     body = ReadBytes bs
                     /\ Utf8.valid bs = false
                     /\ e = UnicodeDecodeError))).
Proof.
  destruct (extract_fields event) as [f|e0] eqn:H.
  - destruct (truthy (stream_arn f)) eqn:Hs.
    + destruct (truthy (contact_id f)) eqn:Hc.
      * rewrite (handler_valid _ _ _ _ _ H Hs Hc). cbn [outcome snd].
        destruct (str_truthy (WHISPA_API_URL cfg)) eqn:Hu;
          [|intros Hr; discriminate Hr].
        rewrite deliver_outcome. unfold escapes.
        destruct (urlopen (build_request cfg (build_payload f)))
          as [cls msg | status body | ex] eqn:Ho;
          try (intros Hr; discriminate Hr).
        destruct ex as [ty at_ | | code fp | reason | cls msg];
          try (intros Hr; discriminate Hr).
        destruct fp as [[bs | cls msg]|]; [| |intros Hr; discriminate Hr].
        -- destruct (Utf8.valid bs) eqn:Hv; [intros Hr; discriminate Hr|].
           intros Hr. inversion Hr; subst e. right.
           split; [reflexivity|].
           exists f, code, (ReadBytes bs). repeat split; try assumption.
           right. exists bs. repeat split; assumption.
        -- intros Hr. inversion Hr; subst e. right.
           split; [reflexivity|].
           exists f, code, (ReadRaises cls msg). repeat split; try assumption.
           left. exists cls, msg. split; reflexivity.
      * rewrite (handler_no_contact _ _ _ _ _ H Hs Hc). intros Hr. discriminate Hr.
    + rewrite (handler_no_stream _ _ _ _ _ H Hs). intros Hr. discriminate Hr.
  - unfold lambda_handler. rewrite H. cbn. intros Hr. inversion Hr; subst e0.
    left. split; [reflexivity|]. split; [|reflexivity].
    exact (extract_fields_raises _ _ H).
Qed.

Lemma handler_raises_cases_witness :
  outcome (lambda_handler Sample.cfg_backend Sample.backend_error_truncated
             Sample.event_minimal PNone)
  = Raise (OtherException "IncompleteRead" "IncompleteRead(0 bytes read)")
  /\ exists f code body,
       extract_fields Sample.event_minimal = Return f
       /\ Sample.backend_error_truncated
            (build_request Sample.cfg_backend (build_payload f))
          = Raises (HTTPError code (Some body)).
Proof.
  split; [reflexivity|].
  destruct (handler_raises_cases Sample.cfg_backend Sample.backend_error_truncated
              Sample.event_minimal PNone
              (OtherException "IncompleteRead" "IncompleteRead(0 bytes read)")
              eq_refl)
    as [(Hraise & _) | (_ & f & code & body & Hf & _ & _ & Ho & _)].
  - discriminate Hraise.
  - exists f, code, body. split; assumption.
Defined.

(** X3.  The requests the handler hands to [urlopen], for every event,
    configuration and behaviour of the library: the one request built from
    the payload, with timeout 10, when the extraction completed,
    [stream_arn] and [contact_id] are both present, a base URL is set and
    [Request(...)] did not raise; none in every other case.  In particular
    never more than one. *)
Theorem requests_sent
    (cfg : Config) (urlopen : Request -> urlopen_outcome)
    (event context : pyval) :
  http_calls (trace (lambda_handler cfg urlopen event context)) =
  match extract_fields event with
  | Return f =>
      if (truthy (stream_arn f) && truthy (contact_id f)
          && str_truthy (WHISPA_API_URL cfg))%bool
      then match urlopen (build_request cfg (build_payload f)) with
           | Rejected _ _ => []
           | Responds _ _ | Raises _ =>
               [(build_request cfg (build_payload f), 10%Z)]
           end
      else []
  | Raise _ => []
  end.
Proof.
  destruct (extract_fields event) as [f|e0] eqn:H.
  - destruct (truthy (stream_arn f)) eqn:Hs.
    + destruct (truthy (contact_id f)) eqn:Hc.
      * rewrite (handler_valid _ _ _ _ _ H Hs Hc). cbn [trace fst http_calls andb].
        destruct (str_truthy (WHISPA_API_URL cfg)); [|reflexivity].
        rewrite deliver_calls. unfold opened.
        destruct (urlopen (build_request cfg (build_payload f))); reflexivity.
      * rewrite (handler_no_contact _ _ _ _ _ H Hs Hc). reflexivity.
    + rewrite (handler_no_stream _ _ _ _ _ H Hs). reflexivity.
  - unfold lambda_handler. rewrite H. reflexivity.
Qed.

(** X6.  A response that was opened never makes the handler fail, whatever
    its status and body: a body that is UTF-8 text is printed with the
    status, a body that is not is caught by the last [except] clause and
    printed as an unexpected error, and the success record is returned in
    both cases. *)
Theorem response_contained
    (cfg : Config) (urlopen : Request -> urlopen_outcome)
    (event context : pyval) (f : ExtractedFields)
    (status : Z) (body : list byte) :
  extract_fields event = Return f ->
  truthy (stream_arn f) = true ->
  truthy (contact_id f) = true ->
  str_truthy (WHISPA_API_URL cfg) = true ->
  urlopen (build_request cfg (build_payload f)) = Responds status body ->
  lambda_handler cfg urlopen event context =
  ([ Printed (LogEventReceived event);
     Printed (LogPayload (build_payload f));
     UrlOpen (build_request cfg (build_payload f)) 10;
     Printed (if Utf8.valid body
              then LogWhispaResponse status (string_of_list_byte body)
              else LogUnexpectedError UnicodeDecodeError) ],
   Return (success f)).
Proof.
  intros H Hs Hc Hu Ho. rewrite (handler_valid _ _ _ _ _ H Hs Hc), Hu.
  unfold deliver, try_except, bind, print, lift, raise, ret, Utf8.decode,
    trace, outcome.
  rewrite Ho. destruct (Utf8.valid body); reflexivity.
Qed.

Lemma response_contained_witness :
  extract_fields Sample.event_minimal = Return Sample.fields_minimal
  /\ lambda_handler Sample.cfg_backend Sample.backend_ok_binary
       Sample.event_minimal PNone
     = ([ Printed (LogEventReceived Sample.event_minimal);
          Printed (LogPayload (build_payload Sample.fields_minimal));
          UrlOpen (build_request Sample.cfg_backend
                     (build_payload Sample.fields_minimal)) 10;
          Printed (if Utf8.valid [xff]
                   then LogWhispaResponse 200 (string_of_list_byte [xff])
                   else LogUnexpectedError UnicodeDecodeError) ],
        Return (success Sample.fields_minimal)).
Proof.
  split; [reflexivity|].
  apply (response_contained Sample.cfg_backend Sample.backend_ok_binary
           Sample.event_minimal PNone Sample.fields_minimal 200 [xff]);
    reflexivity.
Defined.

Lemma rstrip_slash_slashes (n : nat) : rstrip_slash (slashes n) = "".
Proof.
  induction n as [|n IH]; [reflexivity|].
  cbn [slashes rstrip_slash]. rewrite IH. reflexivity.
Qed.

Lemma rstrip_slash_app_slashes (s : string) (n : nat) :
  rstrip_slash (s ++ slashes n)%string = rstrip_slash s.
Proof.
  induction s as [|c rest IH].
  - apply rstrip_slash_slashes.
  - cbn [append rstrip_slash]. rewrite IH. reflexivity.
Qed.

(** X7.  Slashes at the end of the base URL do not reach the request: a
    base URL written with any number of trailing slashes gives the same
    request as the one written without them. *)
Theorem request_ignores_trailing_slashes
    (url key : string) (n : nat) (payload : pyval) :
  build_request {| WHISPA_API_URL := (url ++ slashes n)%string;
                   WHISPA_API_KEY := key |} payload
  = build_request {| WHISPA_API_URL := url; WHISPA_API_KEY := key |} payload.
Proof.
  unfold build_request, endpoint, request_headers. cbn [WHISPA_API_URL WHISPA_API_KEY].
  rewrite rstrip_slash_app_slashes. reflexivity.
Qed.

(** X8.  An event mapping that carries no contact data, because [Details]
    is missing or is a mapping without [ContactData], is answered with the
    400 record for the missing stream, under every configuration, and
    nothing is sent. *)
Theorem missing_contact_data_rejected
    (cfg : Config) (urlopen : Request -> urlopen_outcome)
    (event context : pyval) :
  is_dict event = true ->
  level_ok event ["Details"] ->
  lookup_path event ContactData_path = None ->
  lambda_handler cfg urlopen event context =
  ([Printed (LogEventReceived event); Printed LogNoStreamARN],
   Return missing_stream_arn).
Proof.
  intros Hev Hd Hcd.
  apply (handler_no_stream _ _ _ _ no_fields); [|reflexivity].
  destruct (descend_dict event "Details" Hev Hd) as [di Hdi].
  unfold ContactData_path in Hcd.
  rewrite (lookup_path_descend _ _ _ _ _ Hdi) in Hcd. cbn [lookup_path] in Hcd.
  unfold extract_fields. rewrite Hdi. cbn [rbind]. rewrite dict_get_dict.
  destruct (assoc "ContactData" di); [discriminate Hcd|]. reflexivity.
Qed.

Lemma missing_contact_data_rejected_witness :
  is_dict (PDict [("Details", PDict [("Parameters", PDict [])])]) = true
  /\ lambda_handler Sample.cfg_backend Sample.backend_ok
       (PDict [("Details", PDict [("Parameters", PDict [])])]) PNone
     = ([Printed (LogEventReceived
                    (PDict [("Details", PDict [("Parameters", PDict [])])]));
         Printed LogNoStreamARN],
        Return missing_stream_arn).
Proof.
  split; [reflexivity|].
  apply (missing_contact_data_rejected Sample.cfg_backend Sample.backend_ok
           (PDict [("Details", PDict [("Parameters", PDict [])])]) PNone).
  - reflexivity.
  - intros v Hv. vm_compute in Hv. inversion Hv. reflexivity.
  - reflexivity.
Defined.

(** X9.  The fallback chains already end in [or None], so an extracted
    agent field is [None] or a present value, never an empty string, and
    the second [or None] of the payload changes nothing: the payload
    carries [agent_arn] and [agent_username] exactly as extracted. *)
Theorem agent_fields_normalised (event : pyval) (f : ExtractedFields) :
  extract_fields event = Return f ->
  (agent_arn f = PNone \/ truthy (agent_arn f) = true)
  /\ (agent_username f = PNone \/ truthy (agent_username f) = true)
  /\ assoc "agent_arn" (dict_items (build_payload f)) = Some (agent_arn f)
  /\ assoc "agent_username" (dict_items (build_payload f)) = Some (agent_username f).
Proof.
  intros H. destruct (extract_fields_steps _ _ H).
  assert (A : agent_arn f = PNone \/ truthy (agent_arn f) = true).
  { destruct (py_or_Return_inv _ _ _ get_agent_arn) as (r & _ & [[T ->]|[_ E]]).
    - right. exact T.
    - left. now inversion E. }
  assert (U : agent_username f = PNone \/ truthy (agent_username f) = true).
  { destruct (py_or_Return_inv _ _ _ get_agent_username) as (r & _ & [[T ->]|[_ E]]).
    - right. exact T.
    - left. now inversion E. }
  split; [exact A|]. split; [exact U|].
  cbn. unfold or_None. split.
  - destruct A as [-> | ->]; reflexivity.
  - destruct U as [-> | ->]; reflexivity.
Qed.

Lemma agent_fields_normalised_witness :
  extract_fields Sample.event_name_only = Return Sample.fields_name_only
  /\ assoc "agent_username" (dict_items (build_payload Sample.fields_name_only))
     = Some (PStr "U3").
Proof.
  split; [reflexivity|].
  apply (agent_fields_normalised Sample.event_name_only
           Sample.fields_name_only eq_refl).
Defined.

(* ================================================================= *)
(** ** Instances *)

Lemma returned_value_determined_witness :
  outcome (lambda_handler Sample.cfg_backend Sample.backend_ok
             Sample.event_minimal PNone)
  = Return (success Sample.fields_minimal)
  /\ outcome (lambda_handler Sample.cfg_none Sample.backend_error_binary
                Sample.event_minimal (PInt 1))
     = Return (success Sample.fields_minimal)
  /\ success Sample.fields_minimal = success Sample.fields_minimal.
Proof.
  split; [reflexivity|]. split; [reflexivity|].
  apply (returned_value_determined Sample.cfg_backend Sample.cfg_none
           Sample.backend_ok Sample.backend_error_binary
           Sample.event_minimal PNone (PInt 1));
    reflexivity.
Defined.

Lemma well_shaped_returns_witness :
  well_shaped Sample.event_agent
  /\ exists r,
       outcome (lambda_handler Sample.cfg_backend Sample.backend_ok
                  Sample.event_agent PNone) = Return r
       /\ fixed_shape r.
Proof.
  assert (W : well_shaped Sample.event_agent).
  { split; [reflexivity|]. intros p v Hin Hv. cbn in Hin.
    repeat (destruct Hin as [<-|Hin]; [vm_compute in Hv; now inversion Hv|]).
    destruct Hin. }
  split; [exact W|].
  apply (well_shaped_returns Sample.cfg_backend Sample.backend_ok
           Sample.event_agent PNone W).
  intros req. reflexivity.
Defined.

Lemma missing_level_absent_witness :
  extract_fields Sample.event_minimal = Return Sample.fields_minimal
  /\ lookup_path Sample.event_minimal (in_contact ["CustomerEndpoint"]) = None
  /\ customer_number Sample.fields_minimal = PStr "".
Proof.
  split; [reflexivity|]. split; [reflexivity|].
  destruct (missing_level_absent Sample.event_minimal Sample.fields_minimal
              eq_refl) as [Hplain _].
  destruct (Hplain ["CustomerEndpoint"] ["Address"] eq_refl)
    as (_ & _ & Hnumber & _).
  apply Hnumber. reflexivity.
Defined.

Lemma no_base_url_no_call_witness :
  extract_fields Sample.event_minimal = Return Sample.fields_minimal
  /\ lambda_handler Sample.cfg_none Sample.backend_error_binary
       Sample.event_minimal PNone
     = ([ Printed (LogEventReceived Sample.event_minimal);
          Printed (LogPayload (build_payload Sample.fields_minimal));
          Printed LogNotConfigured ],
        Return (success Sample.fields_minimal)).
Proof.
  split; [reflexivity|].
  apply (no_base_url_no_call Sample.cfg_none Sample.backend_error_binary
           Sample.event_minimal PNone Sample.fields_minimal);
    reflexivity.
Defined.

(* ================================================================= *)
(** ** Where a null level stops the handler before its answer *)

(** C1.  An event without [StreamARN] is to be answered with the 400
    record for the missing stream, whatever its other fields are.  It is
    not when a level of the event is [null]: with [Audio] set to [null]
    (no media stream was started), and with [Queue] set to [null] in an
    event that has no [MediaStreams] at all, [StreamARN] is missing and the
    handler raises [AttributeError] in the extraction, before the
    validation is reached. *)
Theorem missing_stream_not_answered :
  lookup_path Sample.event_audio_null
    (in_contact ["MediaStreams"; "Customer"; "Audio"; "StreamARN"]) = None
  /\ lookup_path Sample.event_audio_null
       (in_contact ["MediaStreams"; "Customer"; "Audio"]) = Some PNone
  /\ lookup_path Sample.event_queue_null
       (in_contact ["MediaStreams"; "Customer"; "Audio"; "StreamARN"]) = None
  /\ lookup_path Sample.event_queue_null (in_contact ["Queue"]) = Some PNone
  /\ (forall cfg urlopen context,
        outcome (lambda_handler cfg urlopen Sample.event_audio_null context)
        = Raise (AttributeError "NoneType" "get")
        /\ outcome (lambda_handler cfg urlopen Sample.event_audio_null context)
           <> Return missing_stream_arn)
  /\ (forall cfg urlopen context,
        outcome (lambda_handler cfg urlopen Sample.event_queue_null context)
        = Raise (AttributeError "NoneType" "get")
        /\ outcome (lambda_handler cfg urlopen Sample.event_queue_null context)
           <> Return missing_stream_arn).
Proof.
  repeat split; try reflexivity; intros H; discriminate H.
Qed.

(** C3.  With [Agent.ARN] absent and [Attributes.agent_arn] present the
    extracted [agent_arn] is to be the attribute.  With [Agent] set to
    [null] and [Attributes.agent_arn] set to [A2] it is not: the [null] is
    not replaced by the empty mapping, the lookup of the ARN raises
    [AttributeError], and no [agent_arn] is extracted. *)
Theorem null_agent_hides_attribute_arn :
  lookup_path Sample.event_agent_null (in_contact ["Agent"]) = Some PNone
  /\ present (lookup_path Sample.event_agent_null (in_contact ["Agent"; "ARN"]))
     = false
  /\ lookup_path Sample.event_agent_null (in_contact ["Attributes"; "agent_arn"])
     = Some (PStr "A2")
  /\ present (lookup_path Sample.event_agent_null
                (in_contact ["Attributes"; "agent_arn"])) = true
  /\ extract_fields Sample.event_agent_null
     = Raise (AttributeError "NoneType" "get")
  /\ (forall f, extract_fields Sample.event_agent_null = Return f ->
                agent_arn f <> PStr "A2")
  /\ (forall cfg urlopen context,
        outcome (lambda_handler cfg urlopen Sample.event_agent_null context)
        = Raise (AttributeError "NoneType" "get")).
Proof.
  repeat split; try reflexivity. intros f H. discriminate H.
Qed.

(** C4.  The extracted [agent_username] is to be the first present value
    among [Agent.Username], [Attributes.agent_username] and
    [ContactData.Name].  With [Attributes] set to [null], no user name in
    the [Agent] object and [Name] set to [U3] it is not: the chain asks the
    [null] for [agent_username] and raises [AttributeError] before it
    reaches [Name].  With [Agent] set to [null] and
    [Attributes.agent_username] set to [U2] the extraction raises as well. *)
Theorem null_level_hides_username :
  lookup_path Sample.event_attributes_null_name (in_contact ["Attributes"])
  = Some PNone
  /\ present (lookup_path Sample.event_attributes_null_name
                (in_contact ["Agent"; "Username"])) = false
  /\ present (lookup_path Sample.event_attributes_null_name
                (in_contact ["Attributes"; "agent_username"])) = false
  /\ lookup_path Sample.event_attributes_null_name (in_contact ["Name"])
     = Some (PStr "U3")
  /\ extract_fields Sample.event_attributes_null_name
     = Raise (AttributeError "NoneType" "get")
  /\ (forall cfg urlopen context,
        outcome (lambda_handler cfg urlopen Sample.event_attributes_null_name
                   context)
        = Raise (AttributeError "NoneType" "get"))
  /\ present (lookup_path Sample.event_agent_null
                (in_contact ["Agent"; "Username"])) = false
  /\ lookup_path Sample.event_agent_null
       (in_contact ["Attributes"; "agent_username"]) = Some (PStr "U2")
  /\ extract_fields Sample.event_agent_null
     = Raise (AttributeError "NoneType" "get").
Proof.
  repeat split; reflexivity.
Qed.
